(** * OGTT-DM Risk Stratifier: a shallow embedding of [src/app/page.tsx]

    The page computes, from the form fields, a chain of memoised values:
    normalised numbers ([clampNum]), BMI, the OGTT indication (step 1), the
    ATP III metabolic syndrome (step 2), the clinical indices, the high-risk
    markers (step 3), the age-based recommendation (step 4) and the
    comparison with a saved baseline.  Each [useMemo] body is a pure function
    of the values it reads and is embedded as a function of them.

    Numbers.  A JavaScript number is embedded as an extended rational
    ([number]): [NaN], the two infinities, or a finite value.  Finite
    arithmetic is exact, the rounding of binary64 is not modelled, and the
    two zeros are one; what the code tests with [Number.isFinite],
    [=== 0], [=== undefined] and the comparisons is kept.  [undefined] of an
    optional number is [None].  A decimal constant of the code, and a
    decimal numeral of a form field, is the rational it denotes.
    [Math.sqrt] is a parameter of the pipeline; the code guards its result
    with [Number.isFinite] and [=== 0].

    A quotient, a product by a decimal constant or a mean of the embedding
    can so differ from the number the code holds in its last binary digit:
    (64.4 - 23.4) / (155 - 105) is 0.82 here and 0.8200000000000002 there.
    Where step 3 compares such a number with a cut-off (the BMI, the
    insulinogenic index, the first-phase Stumvoll index), the theorems on
    the comparison take the number as the pipeline computed it, and the
    main properties of the number itself are its presence, finiteness,
    bounds and monotonicity, which do not depend on that digit.

    State.  The only state is the optional baseline, set by [saveBaseline]
    and reset by [clearBaseline]; it is passed to [comparison]. *)

From Stdlib Require Import ZArith QArith Qabs Lqa Lia Bool List String Ascii.
From Stdlib Require Import DecimalString.
Import ListNotations.

Local Open Scope string_scope.
Local Open Scope list_scope.
Local Open Scope Q_scope.

(** ** JavaScript numbers *)

Inductive number : Type :=
| NaN
| PosInf
| NegInf
| Fin (q : Q).

Module Num.

(** [Number.isFinite] *)
Definition isFinite (n : number) : bool :=
  match n with Fin _ => true | _ => false end.

(** The order of two numbers; [None] when one of them is [NaN]. *)
Definition cmp (a b : number) : option comparison :=
  match a, b with
  | NaN, _ | _, NaN => None
  | Fin x, Fin y => Some (x ?= y)
  | PosInf, PosInf | NegInf, NegInf => Some Eq
  | NegInf, _ | _, PosInf => Some Lt
  | PosInf, _ | _, NegInf => Some Gt
  end.

(** [a < b], [a <= b], [a > b], [a >= b], [a === b] *)
Definition lt (a b : number) : bool :=
  match cmp a b with Some Lt => true | _ => false end.
Definition le (a b : number) : bool :=
  match cmp a b with Some Lt | Some Eq => true | _ => false end.
Definition gt (a b : number) : bool := lt b a.
Definition ge (a b : number) : bool := le b a.
Definition eq (a b : number) : bool :=
  match cmp a b with Some Eq => true | _ => false end.

(** [!n]: a number is falsy when it is zero or [NaN]. *)
Definition falsy (n : number) : bool :=
  match n with
  | NaN => true
  | Fin q => Qeq_bool q 0
  | _ => false
  end.

Definition neg (a : number) : number :=
  match a with
  | NaN => NaN
  | PosInf => NegInf
  | NegInf => PosInf
  | Fin q => Fin (- q)
  end.

Definition add (a b : number) : number :=
  match a, b with
  | NaN, _ | _, NaN => NaN
  | Fin x, Fin y => Fin (x + y)
  | PosInf, NegInf | NegInf, PosInf => NaN
  | PosInf, _ | _, PosInf => PosInf
  | NegInf, _ | _, NegInf => NegInf
  end.

Definition sub (a b : number) : number := add a (neg b).

(** The infinity of the sign of [c] (a comparison with zero); [Eq] stands
    for a zero operand. *)
Definition signed_inf (c : comparison) (onzero : number) : number :=
  match c with
  | Gt => PosInf
  | Lt => NegInf
  | Eq => onzero
  end.

Definition flip (c : comparison) : comparison := CompOpp c.

Definition mul (a b : number) : number :=
  match a, b with
  | NaN, _ | _, NaN => NaN
  | Fin x, Fin y => Fin (x * y)
  | PosInf, Fin y | Fin y, PosInf => signed_inf (y ?= 0) NaN
  | NegInf, Fin y | Fin y, NegInf => signed_inf (flip (y ?= 0)) NaN
  | PosInf, PosInf | NegInf, NegInf => PosInf
  | PosInf, NegInf | NegInf, PosInf => NegInf
  end.

(** Division.  A finite value over zero is an infinity of the sign of the
    numerator (the zero taken as [+0]) and zero over zero is [NaN]. *)
Definition div (a b : number) : number :=
  match a, b with
  | NaN, _ | _, NaN => NaN
  | Fin x, Fin y =>
      if Qeq_bool y 0 then signed_inf (x ?= 0) NaN else Fin (x / y)
  | Fin _, _ => Fin 0
  | PosInf, Fin y => if Qle_bool 0 y then PosInf else NegInf
  | NegInf, Fin y => if Qle_bool 0 y then NegInf else PosInf
  | _, _ => NaN
  end.

(** [Math.max] and [Math.min] of two arguments. *)
Definition max (a b : number) : number :=
  match a, b with
  | NaN, _ | _, NaN => NaN
  | _, _ => if lt a b then b else a
  end.

Definition min (a b : number) : number :=
  match a, b with
  | NaN, _ | _, NaN => NaN
  | _, _ => if lt b a then b else a
  end.

End Num.

Declare Scope js_scope.
Delimit Scope js_scope with js.
Bind Scope js_scope with number.
Infix "+" := Num.add : js_scope.
Infix "-" := Num.sub : js_scope.
Infix "*" := Num.mul : js_scope.
Infix "/" := Num.div : js_scope.
Infix "<" := Num.lt : js_scope.
Infix "<=" := Num.le : js_scope.
Infix ">" := Num.gt : js_scope.
Infix ">=" := Num.ge : js_scope.
Infix "===" := Num.eq (at level 70) : js_scope.

Coercion Fin : Q >-> number.

(** ** [Number(v)] on a raw scalar

    A field's state is a string; [clampNum] takes [any].  A raw scalar is a
    text (a string of code units below 256) or a number.  On a text,
    [Number] is [StringToNumber]: white space is trimmed, the empty string
    is [0], and what remains must be a [StrNumericLiteral] as a whole. *)

Inductive raw : Type :=
| Text (s : string)
| Numeric (n : number).

Module StringToNumber.

Local Open Scope char_scope.

(** White space and line terminators among the code units below 256:
    TAB, LF, VT, FF, CR, SP and NBSP. *)
Definition isWhiteSpace (c : ascii) : bool :=
  let n := nat_of_ascii c in
  orb (andb (9 <=? n)%nat (n <=? 13)%nat)
      (orb (n =? 32)%nat (n =? 160)%nat).

Fixpoint dropSpace (l : list ascii) : list ascii :=
  match l with
  | c :: r => if isWhiteSpace c then dropSpace r else l
  | [] => []
  end.

Definition trim (l : list ascii) : list ascii :=
  rev (dropSpace (rev (dropSpace l))).

(** The value of a digit in a base up to 16. *)
Definition digitValue (c : ascii) : option Z :=
  let n := Z.of_nat (nat_of_ascii c) in
  if andb (48 <=? n)%Z (n <=? 57)%Z then Some (n - 48)%Z
  else if andb (97 <=? n)%Z (n <=? 102)%Z then Some (n - 87)%Z
  else if andb (65 <=? n)%Z (n <=? 70)%Z then Some (n - 55)%Z
  else None.

Definition digitIn (base : Z) (c : ascii) : option Z :=
  match digitValue c with
  | Some d => if (d <? base)%Z then Some d else None
  | None => None
  end.

(** The longest prefix of digits of the base: its value read so far,
    how many digits were read, and the rest. *)
Fixpoint digits (base : Z) (acc : Z) (count : nat) (l : list ascii)
  : Z * nat * list ascii :=
  match l with
  | c :: r =>
      match digitIn base c with
      | Some d => digits base (acc * base + d)%Z (S count) r
      | None => (acc, count, l)
      end
  | [] => (acc, count, [])
  end.

(** Rounding to a double is kept only where it changes finiteness: a value
    of magnitude at least [2^1024 - 2^970] rounds to an infinity. *)
Definition overflow : Q := inject_Z (2 ^ 1024 - 2 ^ 970).

Definition roundMV (q : Q) : number :=
  if Qle_bool overflow (Qabs q)
  then (if Qle_bool 0 q then PosInf else NegInf)
  else Fin q.

(** [ExponentPart_opt] then the end of the text: the exponent. *)
Definition exponentPart (l : list ascii) : option Z :=
  match l with
  | [] => Some 0%Z
  | c :: r =>
      if orb (Ascii.eqb c "e") (Ascii.eqb c "E") then
        let '(neg, r') :=
          match r with
          | "+" :: t => (false, t)
          | "-" :: t => (true, t)
          | _ => (false, r)
          end in
        match digits 10 0 0 r' with
        | (_, O, _) => None
        | (e, _, []) => Some (if neg then (- e)%Z else e)
        | _ => None
        end
      else None
  end.

(** [StrUnsignedDecimalLiteral] up to the end of the text: [Infinity], or
    digits with an optional fraction, at least one digit in all, and an
    optional exponent. *)
Definition unsignedDecimal (l : list ascii) : option number :=
  if list_eq_dec ascii_dec l (list_ascii_of_string "Infinity")
  then Some PosInf
  else
    let '(ip, ni, r) := digits 10 0 0 l in
    let '(m, nf, r') :=
      match r with
      | "." :: t => let '(m, nf, t') := digits 10 ip 0 t in (m, nf, t')
      | _ => (ip, O, r)
      end in
    if andb (Nat.eqb ni 0) (Nat.eqb nf 0) then None
    else
      match exponentPart r' with
      | Some e =>
          Some (roundMV (inject_Z m * Qpower 10 (e - Z.of_nat nf)))
      | None => None
      end.

(** [0x], [0o] and [0b] literals: no sign, at least one digit. *)
Definition nonDecimal (l : list ascii) : option number :=
  match l with
  | "0" :: p :: r =>
      let base :=
        if orb (Ascii.eqb p "x") (Ascii.eqb p "X") then Some 16%Z
        else if orb (Ascii.eqb p "o") (Ascii.eqb p "O") then Some 8%Z
        else if orb (Ascii.eqb p "b") (Ascii.eqb p "B") then Some 2%Z
        else None in
      match base with
      | Some b =>
          match digits b 0 0 r with
          | (_, O, _) => None
          | (v, _, []) => Some (roundMV (inject_Z v))
          | _ => None
          end
      | None => None
      end
  | _ => None
  end.

Definition strNumericLiteral (l : list ascii) : option number :=
  match nonDecimal l with
  | Some n => Some n
  | None =>
      match l with
      | "+" :: r => unsignedDecimal r
      | "-" :: r => option_map Num.neg (unsignedDecimal r)
      | _ => unsignedDecimal l
      end
  end.

Definition parse (s : string) : number :=
  match trim (list_ascii_of_string s) with
  | [] => Fin 0
  | l => match strNumericLiteral l with
         | Some n => n
         | None => NaN
         end
  end.

End StringToNumber.

Definition Number (v : raw) : number :=
  match v with
  | Text s => StringToNumber.parse s
  | Numeric n => n
  end.

(** ** Helpers *)

(** [clampNum]: [undefined] unless [Number(v)] is finite, else the value
    brought into the range by [Math.min(max, Math.max(min, n))]. *)
Definition clampNum (v : raw) (min max : number) : option number :=
  let n := Number v in
  if negb (Num.isFinite n) then None
  else Some (Num.min max (Num.max min n)).


(** [mean]: the mean of the finite numbers among the values, [undefined]
    when there is none. *)
Definition finiteOnes (vals : list (option number)) : list number :=
  flat_map (fun x => match x with
                     | Some n => if Num.isFinite n then [n] else []
                     | None => []
                     end) vals.

Definition mean (vals : list (option number)) : option number :=
  let v := finiteOnes vals in
  match v with
  | [] => None
  | _ => Some (fold_left Num.add v (Fin 0)
               / Fin (inject_Z (Z.of_nat (List.length v))))%js
  end.

Definition safeDiv (a b : option number) : option number :=
  match a, b with
  | Some a, Some b =>
      if orb (orb (negb (Num.isFinite a)) (negb (Num.isFinite b)))
             (b === Fin 0)%js
      then None
      else Some (a / b)%js
  | _, _ => None
  end.

(** IFG: FPG 100-125 mg/dL; IGT: 2h PG 140-199 mg/dL *)
Definition isIFG (g0 : option number) : bool :=
  match g0 with
  | Some g0 => andb (g0 >= Fin 100)%js (g0 < Fin 126)%js
  | None => false
  end.

Definition isIGT (g120 : option number) : bool :=
  match g120 with
  | Some g120 => andb (g120 >= Fin 140)%js (g120 < Fin 200)%js
  | None => false
  end.

(** ** The form and its normalised values *)

(** [sex] is [""], ["female"] or ["male"]; [ethnicity] is [""] or one of six
    labels. *)
Inductive Sex : Type := SexUnset | female | male.

Inductive Ethnicity : Type :=
| EthnicityUnset
| AfricanAmerican
| HispanicLatino
| NativeAmerican
| AsianAmerican
| White
| Other.

(** The choices and check boxes of the form, read as they are. *)
Record Choices : Type := {
  sex : Sex;
  ethnicity : Ethnicity;
  onBPtx : bool;
  hxGDM : bool;
  hxPancreatitis : bool;
  hasMASLD : bool;
  hasPCOS : bool;
  fhxT2D : bool
}.

(** The text fields of the form: each starts as the empty string. *)
Record Fields : Type := {
  age : string; weightKg : string; heightCm : string; waistCm : string;
  sbp : string; dbp : string; tg : string; hdl : string; a1c : string;
  g0 : string; g30 : string; g60 : string; g90 : string; g120 : string;
  i0 : string; i30 : string; i60 : string; i90 : string; i120 : string
}.

(** What the memoised computations read: the parsed numbers and the
    choices. *)
Record Inputs : Type := {
  nAge : option number; nWeight : option number; nHeight : option number;
  nWaist : option number; nSBP : option number; nDBP : option number;
  nTG : option number; nHDL : option number; nA1c : option number;
  ng0 : option number; ng30 : option number; ng60 : option number;
  ng90 : option number; ng120 : option number;
  ni0 : option number; ni30 : option number; ni60 : option number;
  ni90 : option number; ni120 : option number;
  choices : Choices
}.

(** Parse numeric values (light clamping to avoid absurd typos) *)
Definition normalize (f : Fields) (c : Choices) : Inputs := {|
  nAge := clampNum (Text (age f)) 10 100;
  nWeight := clampNum (Text (weightKg f)) 20 300;
  nHeight := clampNum (Text (heightCm f)) 100 230;
  nWaist := clampNum (Text (waistCm f)) 40 200;
  nSBP := clampNum (Text (sbp f)) 60 260;
  nDBP := clampNum (Text (dbp f)) 30 160;
  nTG := clampNum (Text (tg f)) 20 2000;
  nHDL := clampNum (Text (hdl f)) 5 200;
  nA1c := clampNum (Text (a1c f)) 3.5 15;
  ng0 := clampNum (Text (g0 f)) 40 600;
  ng30 := clampNum (Text (g30 f)) 40 600;
  ng60 := clampNum (Text (g60 f)) 40 600;
  ng90 := clampNum (Text (g90 f)) 40 600;
  ng120 := clampNum (Text (g120 f)) 40 600;
  ni0 := clampNum (Text (i0 f)) 0 1000;
  ni30 := clampNum (Text (i30 f)) 0 2000;
  ni60 := clampNum (Text (i60 f)) 0 3000;
  ni90 := clampNum (Text (i90 f)) 0 3000;
  ni120 := clampNum (Text (i120 f)) 0 3000;
  choices := c
|}.

(** Derived anthropometrics *)
Definition bmi (inp : Inputs) : option number :=
  match nWeight inp, nHeight inp with
  | Some w, Some h =>
      let m := (h / Fin 100)%js in
      if Num.falsy m then None
      else Some (w / (m * m))%js
  | _, _ => None
  end.

Definition isAsian (inp : Inputs) : bool :=
  match ethnicity (choices inp) with AsianAmerican => true | _ => false end.

Definition highRiskEthnicity (inp : Inputs) : bool :=
  match ethnicity (choices inp) with
  | AfricanAmerican | HispanicLatino | NativeAmerican | AsianAmerican => true
  | _ => false
  end.

(** [push] under a condition, as in [if (c) xs.push(x)]. *)
Definition pushIf {A : Type} (c : bool) (x : A) (xs : list A) : list A :=
  if c then xs ++ [x] else xs.

(** [x !== undefined && p x] *)
Definition defined_and (x : option number) (p : number -> bool) : bool :=
  match x with Some v => p v | None => false end.

(** ** Step 1: OGTT indication *)

Record RiskFactor : Type := { ok : bool; rfLabel : string }.

Record OgttIndication : Type := { indicated : bool; reasons : list string }.

Definition bmiThreshold (inp : Inputs) : Z := if isAsian inp then 23 else 25.

Definition riskFactors (inp : Inputs) : list RiskFactor :=
  let c := choices inp in
  [ {| ok := hasMASLD c; rfLabel := "MASLD" |};
    {| ok := orb (match nSBP inp, nDBP inp with
                  | Some s, Some d => orb (s >= Fin 130)%js (d >= Fin 80)%js
                  | _, _ => false
                  end) (onBPtx c);
       rfLabel := "Hypertension (≥130/80 or on treatment)" |};
    {| ok := orb (defined_and (nHDL inp) (fun h => h < Fin 35)%js)
                 (defined_and (nTG inp) (fun t => t > Fin 250)%js);
       rfLabel := "Dyslipidemia (HDL <35 or TG >250)" |};
    {| ok := hasPCOS c; rfLabel := "PCOS" |};
    {| ok := fhxT2D c; rfLabel := "First-degree relative with T2D" |};
    {| ok := highRiskEthnicity inp; rfLabel := "High-risk ethnicity" |} ].

Definition showZ (z : Z) : string :=
  DecimalString.NilZero.string_of_int (Z.to_int z).

Definition ogttIndication (inp : Inputs) : OgttIndication :=
  let c := choices inp in
  let reasons := [] in
  (* Direct triggers *)
  let reasons :=
    pushIf (defined_and (ng0 inp)
              (fun g => andb (g >= Fin 100)%js (g < Fin 126)%js))
           "FPG 100–125 mg/dL" reasons in
  let reasons :=
    pushIf (defined_and (nA1c inp)
              (fun a => andb (a >= Fin 5.7)%js (a <= Fin 6.4)%js))
           "HbA1c 5.7–6.4%" reasons in
  let reasons := pushIf (hxGDM c) "History of gestational diabetes" reasons in
  let reasons := pushIf (hxPancreatitis c) "History of pancreatitis" reasons in
  (* BMI + >=1 risk factor *)
  let meetsBMI :=
    defined_and (bmi inp) (fun b => b >= Fin (inject_Z (bmiThreshold inp)))%js in
  let rfMet := filter ok (riskFactors inp) in
  let reasons :=
    pushIf (andb meetsBMI (1 <=? List.length rfMet)%nat)
           ("BMI ≥" ++ showZ (bmiThreshold inp)
              ++ " kg/m² plus risk factor(s): "
              ++ String.concat ", " (map rfLabel rfMet))%string
           reasons in
  {| indicated := (0 <? List.length reasons)%nat; reasons := reasons |}.

(** ** Step 2: metabolic syndrome (ATP III) *)

Record Criterion : Type := { name : string; met : bool; detail : string }.

Record MetabolicSyndrome : Type := {
  present : bool;
  metCount : nat;
  criteria : list Criterion
}.

(** [sex] as a condition: the empty string is falsy. *)
Definition sexSet (s : Sex) : bool :=
  match s with SexUnset => false | _ => true end.

Definition isMale (s : Sex) : bool :=
  match s with male => true | _ => false end.

Definition metabolicSyndrome (inp : Inputs) : MetabolicSyndrome :=
  let c := choices inp in
  let criteria := [] in
  (* Waist *)
  let criteria :=
    match sexSet (sex c), nWaist inp with
    | true, Some w =>
        let waistMet := if isMale (sex c) then (w > Fin 102)%js
                        else (w > Fin 88)%js in
        criteria ++ [ {| name := "Waist circumference"; met := waistMet;
                         detail := if isMale (sex c) then ">102 cm"
                                   else ">88 cm" |} ]
    | _, _ =>
        criteria ++ [ {| name := "Waist circumference"; met := false;
                         detail := "Enter sex + waist" |} ]
    end in
  (* TG *)
  let criteria :=
    match nTG inp with
    | Some t => criteria ++ [ {| name := "Triglycerides";
                                 met := (t >= Fin 150)%js;
                                 detail := "≥150 mg/dL" |} ]
    | None => criteria ++ [ {| name := "Triglycerides"; met := false;
                               detail := "Enter TG" |} ]
    end in
  (* HDL *)
  let criteria :=
    match sexSet (sex c), nHDL inp with
    | true, Some h =>
        let hdlMet := if isMale (sex c) then (h < Fin 40)%js
                      else (h < Fin 50)%js in
        criteria ++ [ {| name := "HDL"; met := hdlMet;
                         detail := if isMale (sex c) then "<40 mg/dL"
                                   else "<50 mg/dL" |} ]
    | _, _ =>
        criteria ++ [ {| name := "HDL"; met := false;
                         detail := "Enter sex + HDL" |} ]
    end in
  (* BP *)
  let criteria :=
    if onBPtx c then
      criteria ++ [ {| name := "Blood pressure"; met := true;
                       detail := "On treatment" |} ]
    else
      match nSBP inp, nDBP inp with
      | Some s, Some d =>
          criteria ++ [ {| name := "Blood pressure";
                           met := orb (s >= Fin 130)%js (d >= Fin 85)%js;
                           detail := "≥130/85" |} ]
      | _, _ =>
          criteria ++ [ {| name := "Blood pressure"; met := false;
                           detail := "Enter BP or treatment" |} ]
      end in
  (* FPG *)
  let criteria :=
    match ng0 inp with
    | Some g => criteria ++ [ {| name := "Fasting glucose";
                                 met := (g >= Fin 100)%js;
                                 detail := "≥100 mg/dL" |} ]
    | None => criteria ++ [ {| name := "Fasting glucose"; met := false;
                               detail := "Enter fasting glucose" |} ]
    end in
  let metCount :=
    fold_left (fun acc c => (acc + (if met c then 1 else 0))%nat) criteria 0%nat in
  {| present := (3 <=? metCount)%nat; metCount := metCount;
     criteria := criteria |}.

(** ** Records of the later steps

    Field names are the source's; each record has a module of its own, as
    several records share field names. *)

Module Indices.
Record t : Type := {
  gMean : option number;
  iMean : option number;
  homaIR : option number;
  homaIRCutoff : number;
  matsuda : option number;
  igi : option number;
  stumvoll1 : option number;
  stumvoll2 : option number;
  di : option number;
  homaBeta : option number;
  pgAucWeighted : option number
}.
End Indices.

Inductive Severity : Type := danger | warn | neutral.

(** A string as a condition: absent and empty are falsy. *)
Definition truthy (s : option string) : bool :=
  match s with
  | Some r => negb (String.eqb r "")
  | None => false
  end.

Module Flag.
Record t : Type := {
  label : string;
  severity : Severity;
  exactRisk : option string
}.

(** The text a flag is shown as, and compared by. *)
Definition render (f : t) : string :=
  if truthy (exactRisk f)
  then (label f ++ " [" ++ match exactRisk f with Some r => r | None => "" end
          ++ "]")%string
  else label f.
End Flag.

Module Risk.
Record t : Type := {
  IFG : bool;
  IGT : bool;
  oneHourHigh : bool;
  a1cHigh : bool;
  igiLow : bool;
  firstPhaseLow : bool;
  metS : bool;
  flags : list Flag.t;
  highRisk : bool;
  exactRisk : option string
}.
End Risk.

Module Step4.
Record WeightLoss : Type := { lowKg : number; highKg : number }.

Record t : Type := {
  applies : bool;
  decision : string;
  weightLoss : option WeightLoss
}.
End Step4.

Module Baseline.
Record t : Type := {
  timestamp : string;
  weightKg : option number;
  bmi : option number;
  metsPresent : bool;
  highRisk : bool;
  exactRisk : option string;
  flags : list string;
  matsuda : option number;
  homaIR : option number;
  igi : option number;
  stumvoll1 : option number;
  pgAuc : option number
}.
End Baseline.

Module Comparison.
Record t : Type := {
  wlPct : option number;
  reversedHighRisk : bool;
  newHighRisk : bool;
  added : list string;
  removed : list string
}.
End Comparison.

(** A [Set] of strings: its elements in insertion order. *)
Module StringSet.
Definition has (s : list string) (x : string) : bool :=
  existsb (String.eqb x) s.

Definition add (s : list string) (x : string) : list string :=
  if has s x then s else s ++ [x].

Definition from (l : list string) : list string :=
  fold_left add l [].
End StringSet.

(** [Severity] is compared as the strings it stands for. *)
Definition isDanger (s : Severity) : bool :=
  match s with danger => true | _ => false end.

(** ** Step 3: the rule blocks

    The body of [risk] after its derived booleans: the flags pushed rule by
    rule, then [highRisk] and [exactRisk] read off the flag list. *)

Definition riskRules
  (IFG IGT oneHourHigh a1cHigh igiLow firstPhaseLow metS : bool) : Risk.t :=
  let flags : list Flag.t := [] in
  (* Rule blocks as written in Figure 1 *)
  let flags :=
    pushIf (andb (andb IGT oneHourHigh) metS)
      {| Flag.label := "IGT + 1-hour PG >155 mg/dL + metabolic syndrome";
         Flag.severity := danger; Flag.exactRisk := Some "52.8%" |}
      flags in
  let flags :=
    pushIf (andb IFG IGT)
      {| Flag.label := "Combined IFG and IGT";
         Flag.severity := danger; Flag.exactRisk := Some ">50%" |}
      flags in
  let flags :=
    pushIf (andb (andb IFG oneHourHigh) metS)
      {| Flag.label := "IFG + 1-hour PG >155 mg/dL + metabolic syndrome";
         Flag.severity := danger; Flag.exactRisk := Some "37.8%" |}
      flags in
  let flags :=
    pushIf (andb (andb (orb IGT IFG) oneHourHigh) a1cHigh)
      {| Flag.label := "IGT or IFG + 1-hour PG >155 mg/dL + HbA1c 6.0–6.4%";
         Flag.severity := danger; Flag.exactRisk := None |}
      flags in
  let flags :=
    pushIf (andb (andb (orb IGT IFG) oneHourHigh) (orb igiLow firstPhaseLow))
      {| Flag.label := "IGT or IFG + 1-hour PG >155 mg/dL + IGI ≤0.82 and/or 1st-phase insulin secretion ≤1007 pmol/L";
         Flag.severity := danger; Flag.exactRisk := None |}
      flags in
  (* Additional transparent descriptive markers *)
  let flags :=
    pushIf IFG
      {| Flag.label := "IFG present (FPG 100–125 mg/dL)";
         Flag.severity := warn; Flag.exactRisk := None |} flags in
  let flags :=
    pushIf IGT
      {| Flag.label := "IGT present (2-hour PG 140–199 mg/dL)";
         Flag.severity := warn; Flag.exactRisk := None |} flags in
  let flags :=
    pushIf oneHourHigh
      {| Flag.label := "1-hour PG >155 mg/dL";
         Flag.severity := warn; Flag.exactRisk := None |} flags in
  let flags :=
    pushIf metS
      {| Flag.label := "Metabolic syndrome present (ATP III)";
         Flag.severity := warn; Flag.exactRisk := None |} flags in
  let highRisk := existsb (fun f => isDanger (Flag.severity f)) flags in
  (* Provide a primary exact risk line if present *)
  let exactRisk :=
    match find (fun f => truthy (Flag.exactRisk f)) flags with
    | Some f => Flag.exactRisk f
    | None => None
    end in
  {| Risk.IFG := IFG; Risk.IGT := IGT; Risk.oneHourHigh := oneHourHigh;
     Risk.a1cHigh := a1cHigh; Risk.igiLow := igiLow;
     Risk.firstPhaseLow := firstPhaseLow; Risk.metS := metS;
     Risk.flags := flags; Risk.highRisk := highRisk;
     Risk.exactRisk := exactRisk |}.

Section Pipeline.

(** [Math.sqrt], a function of the host, is a parameter. *)
Variable Math_sqrt : number -> number.

Definition sqrt (x : number) : number := Math_sqrt x.

(** ** Indices (Supplementary Tables 1 and 2) *)

Definition gMean (inp : Inputs) : option number :=
  mean [ng0 inp; ng30 inp; ng60 inp; ng90 inp; ng120 inp].

Definition iMean (inp : Inputs) : option number :=
  mean [ni0 inp; ni30 inp; ni60 inp; ni90 inp; ni120 inp].

Definition homaIR (inp : Inputs) : option number :=
  match ng0 inp, ni0 inp with
  | Some g, Some i => safeDiv (Some (g * i)%js) (Some (Fin 405))
  | _, _ => None
  end.

Definition homaIRCutoff (inp : Inputs) : number :=
  if hasMASLD (choices inp) then Fin 2
  else if defined_and (bmi inp) (fun b => b > Fin 27.5)%js then Fin 3.6
  else Fin 4.65.

Definition matsuda (inp : Inputs) : option number :=
  match ng0 inp, ni0 inp, gMean inp, iMean inp with
  | Some g, Some i, Some gm, Some im =>
      let denom := sqrt ((g * i) * (gm * im))%js in
      if orb (negb (Num.isFinite denom)) (denom === Fin 0)%js then None
      else Some (Fin 10000 / denom)%js
  | _, _, _, _ => None
  end.

Definition igi (inp : Inputs) : option number :=
  (* (I30 - I0) / (G30 - G0) *)
  match ni30 inp, ni0 inp, ng30 inp, ng0 inp with
  | Some i30, Some i0, Some g30, Some g0 =>
      let denom := (g30 - g0)%js in
      if (denom === Fin 0)%js then None
      else Some ((i30 - i0) / denom)%js
  | _, _, _, _ => None
  end.

(** Stumvoll conversions *)
Definition i0_pmol (inp : Inputs) : option number :=
  option_map (fun i => i * Fin 6)%js (ni0 inp).
Definition i30_pmol (inp : Inputs) : option number :=
  option_map (fun i => i * Fin 6)%js (ni30 inp).
Definition g30_mmol (inp : Inputs) : option number :=
  option_map (fun g => g / Fin 18)%js (ng30 inp).

Definition stumvoll1 (inp : Inputs) : option number :=
  (* 1283 + (1.829 x I30) - (138.7 x G30) + (3.772 x I0) *)
  match i30_pmol inp, g30_mmol inp, i0_pmol inp with
  | Some i30, Some g30, Some i0 =>
      Some (Fin 1283 + Fin 1.829 * i30 - Fin 138.7 * g30
            + Fin 3.772 * i0)%js
  | _, _, _ => None
  end.

Definition stumvoll2 (inp : Inputs) : option number :=
  (* 287 + (0.4164 x I30) - (26.07 x G30) + (0.9226 x I0) *)
  match i30_pmol inp, g30_mmol inp, i0_pmol inp with
  | Some i30, Some g30, Some i0 =>
      Some (Fin 287 + Fin 0.4164 * i30 - Fin 26.07 * g30
            + Fin 0.9226 * i0)%js
  | _, _, _ => None
  end.

Definition di (inp : Inputs) : option number :=
  (* DI = Matsuda x IGI *)
  match matsuda inp, igi inp with
  | Some m, Some i => Some (m * i)%js
  | _, _ => None
  end.

Definition homaBeta (inp : Inputs) : option number :=
  (* (fasting insulin x 360) / (fasting glucose - 63) *)
  match ni0 inp, ng0 inp with
  | Some i0, Some g0 =>
      let denom := (g0 - Fin 63)%js in
      if (denom === Fin 0)%js then None
      else Some ((i0 * Fin 360) / denom)%js
  | _, _ => None
  end.

Definition pgAucWeighted (inp : Inputs) : option number :=
  (* (PG0 + 2xPG30 + 3xPG60 + 2xPG120) / 4 *)
  match ng0 inp, ng30 inp, ng60 inp, ng120 inp with
  | Some g0, Some g30, Some g60, Some g120 =>
      Some ((g0 + Fin 2 * g30 + Fin 3 * g60 + Fin 2 * g120) / Fin 4)%js
  | _, _, _, _ => None
  end.

Definition indices (inp : Inputs) : Indices.t := {|
  Indices.gMean := gMean inp;
  Indices.iMean := iMean inp;
  Indices.homaIR := homaIR inp;
  Indices.homaIRCutoff := homaIRCutoff inp;
  Indices.matsuda := matsuda inp;
  Indices.igi := igi inp;
  Indices.stumvoll1 := stumvoll1 inp;
  Indices.stumvoll2 := stumvoll2 inp;
  Indices.di := di inp;
  Indices.homaBeta := homaBeta inp;
  Indices.pgAucWeighted := pgAucWeighted inp
|}.

(** ** Step 3: high-risk prognostic markers *)

Definition risk (inp : Inputs) : Risk.t :=
  let IFG := isIFG (ng0 inp) in
  let IGT := isIGT (ng120 inp) in
  let oneHourHigh := defined_and (ng60 inp) (fun g => g > Fin 155)%js in
  let a1cHigh :=
    defined_and (nA1c inp)
      (fun a => andb (a >= Fin 6.0)%js (a <= Fin 6.4)%js) in
  let igiLow :=
    defined_and (Indices.igi (indices inp)) (fun x => x <= Fin 0.82)%js in
  let firstPhaseLow :=
    defined_and (Indices.stumvoll1 (indices inp))
      (fun x => x <= Fin 1007)%js in
  let metS := present (metabolicSyndrome inp) in
  riskRules IFG IGT oneHourHigh a1cHigh igiLow firstPhaseLow metS.

(** ** Step 4: age-based eligibility and weight-loss target *)

Definition step4 (inp : Inputs) : Step4.t :=
  if negb (Risk.highRisk (risk inp)) then
    {| Step4.applies := false;
       Step4.decision := "Not in high-risk group based on Step 3 criteria.";
       Step4.weightLoss := None |}
  else
    match nAge inp with
    | None =>
        {| Step4.applies := true;
           Step4.decision :=
             "High-risk group: enter age to determine eligibility recommendation.";
           Step4.weightLoss := None |}
    | Some a =>
        let decision :=
          if (a < Fin 40)%js then
            "Age <40 years: Not a candidate (high risk)."
          else if andb (a >= Fin 40)%js (a <= Fin 49)%js then
            "Age 40–49 years: Consider only if able to reverse high-risk prognostic markers with weight loss on repeat OGTT."
          else
            "Age ≥50 years: Can be accepted after risk mitigation with 5–10% weight loss." in
        let wl :=
          match nWeight inp with
          | None => None
          | Some w => Some {| Step4.lowKg := (w * Fin 0.05)%js;
                              Step4.highKg := (w * Fin 0.10)%js |}
          end in
        {| Step4.applies := true; Step4.decision := decision;
           Step4.weightLoss := wl |}
    end.

(** ** The baseline and the comparison with it

    The baseline is the one piece of state: [None] until [saveBaseline]
    stores the snapshot of the current values, and again after
    [clearBaseline].  The time stamp is given by the host. *)

Definition snapshot (ts : string) (inp : Inputs) : Baseline.t :=
       {| Baseline.timestamp := ts;
          Baseline.weightKg := nWeight inp;
          Baseline.bmi := bmi inp;
          Baseline.metsPresent := present (metabolicSyndrome inp);
          Baseline.highRisk := Risk.highRisk (risk inp);
          Baseline.exactRisk := Risk.exactRisk (risk inp);
          Baseline.flags := map Flag.render (Risk.flags (risk inp));
          Baseline.matsuda := Indices.matsuda (indices inp);
          Baseline.homaIR := Indices.homaIR (indices inp);
          Baseline.igi := Indices.igi (indices inp);
          Baseline.stumvoll1 := Indices.stumvoll1 (indices inp);
          Baseline.pgAuc := Indices.pgAucWeighted (indices inp) |}.

Definition saveBaseline (ts : string) (inp : Inputs) : option Baseline.t :=
  Some (snapshot ts inp).

Definition clearBaseline : option Baseline.t := None.

Definition comparison (baseline : option Baseline.t) (inp : Inputs)
  : option Comparison.t :=
  match baseline with
  | None => None
  | Some baseline =>
      let nowWeight := nWeight inp in
      let wlPct :=
        match Baseline.weightKg baseline, nowWeight with
        | Some bw, Some nw =>
            if (bw > Fin 0)%js
            then Some (((bw - nw) / bw) * Fin 100)%js
            else None
        | _, _ => None
        end in
      let reversedHighRisk :=
        andb (Baseline.highRisk baseline)
             (negb (Risk.highRisk (risk inp))) in
      let newHighRisk :=
        andb (negb (Baseline.highRisk baseline))
             (Risk.highRisk (risk inp)) in
      let baseFlags := StringSet.from (Baseline.flags baseline) in
      let nowFlags :=
        StringSet.from (map Flag.render (Risk.flags (risk inp))) in
      let added :=
        filter (fun x => negb (StringSet.has baseFlags x)) nowFlags in
      let removed :=
        filter (fun x => negb (StringSet.has nowFlags x)) baseFlags in
      Some {| Comparison.wlPct := wlPct;
              Comparison.reversedHighRisk := reversedHighRisk;
              Comparison.newHighRisk := newHighRisk;
              Comparison.added := added;
              Comparison.removed := removed |}
  end.

End Pipeline.

(** ** Definitions used by the statements *)

(** The form as the page opens it: every text field empty. *)
Definition initialFields : Fields := {|
  age := ""; weightKg := ""; heightCm := ""; waistCm := "";
  sbp := ""; dbp := ""; tg := ""; hdl := ""; a1c := "";
  g0 := ""; g30 := ""; g60 := ""; g90 := ""; g120 := "";
  i0 := ""; i30 := ""; i60 := ""; i90 := ""; i120 := ""
|}.

(** An optional number is absent or finite within [lo, hi]. *)
Definition inRange (lo hi : Q) (o : option number) : bool :=
  match o with
  | Some (Fin q) => andb (Qle_bool lo q) (Qle_bool q hi)
  | Some _ => false
  | None => true
  end.

(** Inputs as [normalize] makes them: each number absent or within the
    range it was clamped to. *)
Definition normalized (inp : Inputs) : bool :=
  forallb (fun x => x)
    [ inRange 10 100 (nAge inp); inRange 20 300 (nWeight inp);
      inRange 100 230 (nHeight inp); inRange 40 200 (nWaist inp);
      inRange 60 260 (nSBP inp); inRange 30 160 (nDBP inp);
      inRange 20 2000 (nTG inp); inRange 5 200 (nHDL inp);
      inRange 3.5 15 (nA1c inp);
      inRange 40 600 (ng0 inp); inRange 40 600 (ng30 inp);
      inRange 40 600 (ng60 inp); inRange 40 600 (ng90 inp);
      inRange 40 600 (ng120 inp);
      inRange 0 1000 (ni0 inp); inRange 0 2000 (ni30 inp);
      inRange 0 3000 (ni60 inp); inRange 0 3000 (ni90 inp);
      inRange 0 3000 (ni120 inp) ].

(** An optional number is absent or finite: neither [NaN] nor infinite. *)
Definition finiteOrAbsent (o : option number) : bool :=
  match o with
  | Some n => Num.isFinite n
  | None => true
  end.

(** The second entry of [riskFactors]: hypertension. *)
Definition hypertensionFactor (inp : Inputs) : bool :=
  match riskFactors inp with
  | _ :: h :: _ => ok h
  | _ => false
  end.

(** The danger rows of the rule table of step 3, in table order, as the
    specification lists them: the condition over the derived booleans and
    the exact risk of the row. *)
Definition dangerTable (r : Risk.t) : list (bool * option string) :=
  let IFG := Risk.IFG r in
  let IGT := Risk.IGT r in
  let oneHourHigh := Risk.oneHourHigh r in
  let metS := Risk.metS r in
  [ (andb (andb IGT oneHourHigh) metS, Some "52.8%");
    (andb IFG IGT, Some ">50%");
    (andb (andb IFG oneHourHigh) metS, Some "37.8%");
    (andb (andb (orb IGT IFG) oneHourHigh) (Risk.a1cHigh r), None);
    (andb (andb (orb IGT IFG) oneHourHigh)
          (orb (Risk.igiLow r) (Risk.firstPhaseLow r)), None) ].

(** The exact risk of the first row that matched. *)
Definition firstMatch (table : list (bool * option string)) : option string :=
  match find fst table with
  | Some row => snd row
  | None => None
  end.

(** How many criteria are met. *)
Definition countMet (l : list bool) : nat :=
  List.length (filter (fun b => b) l).

(** A descriptive marker: a flag of severity warn without an exact risk. *)
Definition warnFlag (label : string) : Flag.t :=
  {| Flag.label := label; Flag.severity := warn; Flag.exactRisk := None |}.

(** The flag [x] when [c] holds. *)
Definition flagIf (c : bool) (x : Flag.t) : list Flag.t :=
  if c then [x] else [].

(** A square root to run the pipeline with: the root of a non-negative
    rational to twelve decimal places, [NaN] below zero. *)
Definition approxSqrt (x : number) : number :=
  match x with
  | NaN | NegInf => NaN
  | PosInf => PosInf
  | Fin q =>
      if Qle_bool 0 q
      then Fin (Z.sqrt (Qnum q * QDen q * 10 ^ 24) # (Qden q * 10 ^ 12))
      else NaN
  end.

(** The inputs of a form nobody has typed in. *)
Definition blankInputs (c : Choices) : Inputs := {|
  nAge := Some (Fin 10); nWeight := Some (Fin 20); nHeight := Some (Fin 100);
  nWaist := Some (Fin 40); nSBP := Some (Fin 60); nDBP := Some (Fin 30);
  nTG := Some (Fin 20); nHDL := Some (Fin 5); nA1c := Some (Fin 3.5);
  ng0 := Some (Fin 40); ng30 := Some (Fin 40); ng60 := Some (Fin 40);
  ng90 := Some (Fin 40); ng120 := Some (Fin 40);
  ni0 := Some (Fin 0); ni30 := Some (Fin 0); ni60 := Some (Fin 0);
  ni90 := Some (Fin 0); ni120 := Some (Fin 0);
  choices := c
|}.

(** The five criteria in the words of the specification. *)
Definition waistCriterion (inp : Inputs) : bool :=
  match sex (choices inp), nWaist inp with
  | male, Some w => (w > Fin 102)%js
  | female, Some w => (w > Fin 88)%js
  | _, _ => false
  end.

Definition tgCriterion (inp : Inputs) : bool :=
  match nTG inp with
  | Some t => (t >= Fin 150)%js
  | None => false
  end.

Definition hdlCriterion (inp : Inputs) : bool :=
  match sex (choices inp), nHDL inp with
  | male, Some h => (h < Fin 40)%js
  | female, Some h => (h < Fin 50)%js
  | _, _ => false
  end.

Definition bpCriterion (inp : Inputs) : bool :=
  orb (onBPtx (choices inp))
      (match nSBP inp, nDBP inp with
       | Some s, Some d => orb (s >= Fin 130)%js (d >= Fin 85)%js
       | _, _ => false
       end).

Definition fpgCriterion (inp : Inputs) : bool :=
  match ng0 inp with
  | Some g => (g >= Fin 100)%js
  | None => false
  end.

(** Every index of the record is absent or finite. *)
Definition allIndicesFinite (ix : Indices.t) : bool :=
  forallb finiteOrAbsent
    [ Indices.gMean ix; Indices.iMean ix; Indices.homaIR ix;
      Some (Indices.homaIRCutoff ix); Indices.matsuda ix; Indices.igi ix;
      Indices.stumvoll1 ix; Indices.stumvoll2 ix; Indices.di ix;
      Indices.homaBeta ix; Indices.pgAucWeighted ix ].

(** ** Sample forms *)

Definition noChoices : Choices := {|
  sex := SexUnset; ethnicity := White; onBPtx := false; hxGDM := false;
  hxPancreatitis := false; hasMASLD := false; hasPCOS := false;
  fhxT2D := false
|}.

(** BMI 27.7, systolic 140, a diastolic field that holds no number, normal
    lipids and glucose, no other risk factor. *)
Definition systolicOnly : Fields := {|
  age := "45"; weightKg := "80"; heightCm := "170"; waistCm := "90";
  sbp := "140"; dbp := "n/a"; tg := "100"; hdl := "50"; a1c := "5.0";
  g0 := "90"; g30 := ""; g60 := ""; g90 := ""; g120 := "";
  i0 := ""; i30 := ""; i60 := ""; i90 := ""; i120 := ""
|}.

(** The same with the diastolic field filled in. *)
Definition bothReadings : Fields := {|
  age := "45"; weightKg := "80"; heightCm := "170"; waistCm := "90";
  sbp := "140"; dbp := "70"; tg := "100"; hdl := "50"; a1c := "5.0";
  g0 := "90"; g30 := ""; g60 := ""; g90 := ""; g120 := "";
  i0 := ""; i30 := ""; i60 := ""; i90 := ""; i120 := ""
|}.

Definition maleChoices : Choices := {|
  sex := male; ethnicity := White; onBPtx := false; hxGDM := false;
  hxPancreatitis := false; hasMASLD := false; hasPCOS := false;
  fhxT2D := false
|}.

Definition treatedChoices : Choices := {|
  sex := male; ethnicity := White; onBPtx := true; hxGDM := false;
  hxPancreatitis := false; hasMASLD := false; hasPCOS := false;
  fhxT2D := false
|}.

(** IFG, IGT, a high 1-hour glucose and all five criteria of the metabolic
    syndrome: the first three rows of the rule table match. *)
Definition highRiskForm : Fields := {|
  age := "55"; weightKg := "100"; heightCm := "175"; waistCm := "110";
  sbp := "135"; dbp := "85"; tg := "200"; hdl := "38"; a1c := "6.1";
  g0 := "110"; g30 := "150"; g60 := "180"; g90 := "160"; g120 := "150";
  i0 := "10"; i30 := "60"; i60 := "80"; i90 := "70"; i120 := "50"
|}.

(** The same patient later: 92 kg, glucose back to normal. *)
Definition repeatForm : Fields := {|
  age := "55"; weightKg := "92"; heightCm := "175"; waistCm := "100";
  sbp := "125"; dbp := "80"; tg := "140"; hdl := "45"; a1c := "5.5";
  g0 := "95"; g30 := "140"; g60 := "150"; g90 := "130"; g120 := "120";
  i0 := "8"; i30 := "70"; i60 := "60"; i90 := "40"; i120 := "30"
|}.

(** Only the fasting glucose is raised: one warn flag. *)
Definition fastingOnlyForm : Fields := {|
  age := "55"; weightKg := "70"; heightCm := "175"; waistCm := "90";
  sbp := "120"; dbp := "70"; tg := "100"; hdl := "50"; a1c := "5.5";
  g0 := "110"; g30 := "140"; g60 := "150"; g90 := "130"; g120 := "120";
  i0 := "8"; i30 := "70"; i60 := "60"; i90 := "40"; i120 := "30"
|}.

(** High risk by IFG with IGT, a weight, and an age field without a
    number. *)
Definition highRiskNoAge : Fields := {|
  age := "?"; weightKg := "80"; heightCm := "170"; waistCm := "90";
  sbp := "120"; dbp := "70"; tg := "100"; hdl := "50"; a1c := "5.0";
  g0 := "110"; g30 := ""; g60 := ""; g90 := ""; g120 := "150";
  i0 := ""; i30 := ""; i60 := ""; i90 := ""; i120 := ""
|}.

(** The same at age 30. *)
Definition highRiskYoung : Fields := {|
  age := "30"; weightKg := "80"; heightCm := "170"; waistCm := "90";
  sbp := "120"; dbp := "70"; tg := "100"; hdl := "50"; a1c := "5.0";
  g0 := "110"; g30 := ""; g60 := ""; g90 := ""; g120 := "150";
  i0 := ""; i30 := ""; i60 := ""; i90 := ""; i120 := ""
|}.

(** Glucose 90, 150, 180, 999 (clamped to 600) and 130. *)
Definition aucForm : Fields := {|
  age := ""; weightKg := ""; heightCm := ""; waistCm := "";
  sbp := ""; dbp := ""; tg := ""; hdl := ""; a1c := "";
  g0 := "90"; g30 := "150"; g60 := "180"; g90 := "999"; g120 := "130";
  i0 := ""; i30 := ""; i60 := ""; i90 := ""; i120 := ""
|}.

(** The same without a 90-minute value. *)
Definition aucFormNo90 : Fields := {|
  age := ""; weightKg := ""; heightCm := ""; waistCm := "";
  sbp := ""; dbp := ""; tg := ""; hdl := ""; a1c := "";
  g0 := "90"; g30 := "150"; g60 := "180"; g90 := "-"; g120 := "130";
  i0 := ""; i30 := ""; i60 := ""; i90 := ""; i120 := ""
|}.

(** G0 = G30 = 95 with insulin 10 and 60. *)
Definition flatGlucoseForm : Fields := {|
  age := "50"; weightKg := "80"; heightCm := "170"; waistCm := "90";
  sbp := "120"; dbp := "70"; tg := "100"; hdl := "50"; a1c := "5.0";
  g0 := "95"; g30 := "95"; g60 := "120"; g90 := "110"; g120 := "100";
  i0 := "10"; i30 := "60"; i60 := "50"; i90 := "40"; i120 := "20"
|}.

(** Three criteria met: triglycerides, treatment, fasting glucose. *)
Definition threeCriteriaForm : Fields := {|
  age := "50"; weightKg := "80"; heightCm := "170"; waistCm := "90";
  sbp := "120"; dbp := "70"; tg := "200"; hdl := "50"; a1c := "5.0";
  g0 := "110"; g30 := ""; g60 := ""; g90 := ""; g120 := "";
  i0 := ""; i30 := ""; i60 := ""; i90 := ""; i120 := ""
|}.

(** BMI 24 with MASLD, by ethnicity. *)
Definition bmi24Form : Fields := {|
  age := "45"; weightKg := "69.36"; heightCm := "170"; waistCm := "85";
  sbp := "120"; dbp := "70"; tg := "100"; hdl := "50"; a1c := "5.0";
  g0 := "90"; g30 := ""; g60 := ""; g90 := ""; g120 := "";
  i0 := ""; i30 := ""; i60 := ""; i90 := ""; i120 := ""
|}.

Definition masldChoices (e : Ethnicity) : Choices := {|
  sex := female; ethnicity := e; onBPtx := false; hxGDM := false;
  hxPancreatitis := false; hasMASLD := true; hasPCOS := false;
  fhxT2D := false
|}.

(** ** The state setter of the treatment check box *)

Definition setOnBPtx (b : bool) (inp : Inputs) : Inputs :=
  let c := choices inp in
  {| nAge := nAge inp; nWeight := nWeight inp; nHeight := nHeight inp;
     nWaist := nWaist inp; nSBP := nSBP inp; nDBP := nDBP inp;
     nTG := nTG inp; nHDL := nHDL inp; nA1c := nA1c inp;
     ng0 := ng0 inp; ng30 := ng30 inp; ng60 := ng60 inp; ng90 := ng90 inp;
     ng120 := ng120 inp;
     ni0 := ni0 inp; ni30 := ni30 inp; ni60 := ni60 inp; ni90 := ni90 inp;
     ni120 := ni120 inp;
     choices := {| sex := sex c; ethnicity := ethnicity c; onBPtx := b;
                   hxGDM := hxGDM c; hxPancreatitis := hxPancreatitis c;
                   hasMASLD := hasMASLD c; hasPCOS := hasPCOS c;
                   fhxT2D := fhxT2D c |} |}.

(** ** The printable summary

    [toFixed] and the conversion of a number to a string are functions of
    the host and are parameters. *)

Definition toolName : string := "OGTT-DM Risk Stratifier".

Definition sexText (s : Sex) : string :=
  match s with
  | SexUnset => ""
  | female => "female"
  | male => "male"
  end.

Definition ethnicityText (e : Ethnicity) : string :=
  match e with
  | EthnicityUnset => ""
  | AfricanAmerican => "African American"
  | HispanicLatino => "Hispanic/Latino"
  | NativeAmerican => "Native American"
  | AsianAmerican => "Asian American"
  | White => "White"
  | Other => "Other"
  end.

Definition isNaN (n : number) : bool :=
  match n with NaN => true | _ => false end.

Definition newline : string := String (ascii_of_nat 10) EmptyString.

Section Summary.

Variable Math_sqrt : number -> number.
Variable toFixed : number -> nat -> string.
Variable numberToString : number -> string.

Definition fmt (v : option number) (digits : nat) : string :=
  match v with
  | None => "—"
  | Some n => if isNaN n then "—" else toFixed n digits
  end.

Definition pctFmt (v : option number) (digits : nat) : string :=
  match v with
  | None => "—"
  | Some n => if isNaN n then "—" else (toFixed n digits ++ "%")%string
  end.

Definition summaryLines (inp : Inputs) : list string :=
  let ogttIndication := ogttIndication inp in
  let metabolicSyndrome := metabolicSyndrome inp in
  let indices := indices Math_sqrt inp in
  let risk := risk Math_sqrt inp in
  let step4 := step4 Math_sqrt inp in
  let lines : list string := [] in
  let lines := lines ++ [toolName] in
  let lines := lines ++ ["—"] in
  let lines :=
    match nAge inp with
    | Some a => lines ++ [("Age: " ++ numberToString a)%string]
    | None => lines
    end in
  let lines :=
    pushIf (sexSet (sex (choices inp)))
           ("Sex: " ++ sexText (sex (choices inp)))%string lines in
  let lines :=
    pushIf (negb (String.eqb (ethnicityText (ethnicity (choices inp))) ""))
           ("Ethnicity: " ++ ethnicityText (ethnicity (choices inp)))%string
           lines in
  let lines :=
    match bmi inp with
    | Some b => lines ++ [("BMI: " ++ fmt (Some b) 1 ++ " kg/m²")%string]
    | None => lines
    end in
  let lines := lines ++ [" "] in
  let lines :=
    lines ++ [("Step 1 (OGTT indication): "
               ++ (if indicated ogttIndication then "YES" else "NO"))%string] in
  let lines :=
    pushIf (negb (Nat.eqb (List.length (reasons ogttIndication)) 0))
           ("Reasons: " ++ String.concat "; " (reasons ogttIndication))%string
           lines in
  let lines := lines ++ [" "] in
  let lines :=
    lines ++ [("Step 2 (Metabolic syndrome): "
               ++ (if present metabolicSyndrome then "PRESENT"
                   else "ABSENT/UNKNOWN")
               ++ " (" ++ showZ (Z.of_nat (metCount metabolicSyndrome))
               ++ "/5 criteria met)")%string] in
  let lines := lines ++ [" "] in
  let lines :=
    lines ++ [("Step 3 (High-risk prognostic markers): "
               ++ (if Risk.highRisk risk then "HIGH RISK"
                   else "Not high-risk"))%string] in
  let lines :=
    match Risk.exactRisk risk with
    | Some r =>
        pushIf (truthy (Some r))
               ("Exact risk (per criteria): " ++ r)%string lines
    | None => lines
    end in
  let lines :=
    pushIf (negb (Nat.eqb (List.length (Risk.flags risk)) 0))
           ("Findings: "
              ++ String.concat "; " (map Flag.render (Risk.flags risk)))%string
           lines in
  let lines := lines ++ [" "] in
  let lines :=
    if Step4.applies step4 then
      let lines :=
        lines ++ [("Step 4 (Age-based recommendation): "
                   ++ Step4.decision step4)%string] in
      match Step4.weightLoss step4 with
      | Some wl =>
          lines ++ [("Weight-loss target (5–10%): "
                     ++ fmt (Some (Step4.lowKg wl)) 1 ++ "–"
                     ++ fmt (Some (Step4.highKg wl)) 1 ++ " kg")%string]
      | None => lines
      end
    else lines in
  let lines := lines ++ [" "] in
  let lines := lines ++ ["Calculated indices:"] in
  let lines :=
    lines ++ [("- Matsuda index: " ++ fmt (Indices.matsuda indices) 2
               ++ " (IR if <4.3)")%string] in
  let lines :=
    lines ++ [("- HOMA-IR: " ++ fmt (Indices.homaIR indices) 2
               ++ " (cutoff used: >"
               ++ fmt (Some (Indices.homaIRCutoff indices)) 2 ++ ")")%string] in
  let lines :=
    lines ++ [("- IGI: " ++ fmt (Indices.igi indices) 3
               ++ " (flag if ≤0.82 in Step 3 rule)")%string] in
  let lines :=
    lines ++ [("- Stumvoll 1st-phase: " ++ fmt (Indices.stumvoll1 indices) 0
               ++ " pmol/L (flag if ≤1007)")%string] in
  let lines :=
    lines ++ [("- Stumvoll 2nd-phase: " ++ fmt (Indices.stumvoll2 indices) 0
               ++ " pmol/L")%string] in
  let lines :=
    lines ++ [("- Disposition index (Matsuda×IGI): "
               ++ fmt (Indices.di indices) 3)%string] in
  let lines :=
    lines ++ [("- HOMA-β: " ++ fmt (Indices.homaBeta indices) 1)%string] in
  let lines :=
    lines ++ [("- PG AUC (weighted): " ++ fmt (Indices.pgAucWeighted indices) 1
               ++ " mg·h/dL")%string] in
  let lines := lines ++ [" "] in
  let lines :=
    lines ++ ["Disclaimer: Clinical decision support/education tool. No patient data are stored. Use clinical judgment."] in
  lines.

Definition summary (inp : Inputs) : string :=
  String.concat newline (summaryLines inp).

End Summary.

(** ** PDF export: the clean-up of the text and the layout of its lines

    A text of the export is a list of UTF-16 code units.  The calls on the
    document are recorded as a list of operations. *)

Definition codeUnits (s : string) : list N :=
  map N_of_ascii (list_ascii_of_string s).

(** [text.replace(/c/g, rep)] for a pattern of one code unit. *)
Definition replaceAll (pat : N) (rep : string) (text : list N) : list N :=
  flat_map (fun c => if N.eqb c pat then codeUnits rep else [c]) text.

Definition sanitizeForPDF (text : list N) : list N :=
  let text := replaceAll 0x2014 "-" text in
  let text := replaceAll 0x2013 "-" text in
  let text := replaceAll 0xB2 "2" text in
  let text := replaceAll 0x2264 "<=" text in
  let text := replaceAll 0x2265 ">=" text in
  let text := replaceAll 0xD7 "x" text in
  let text := replaceAll 0xB7 "." text in
  let text := replaceAll 0x3B2 "beta" text in
  let text := replaceAll 0x3BC "u" text in
  let text := replaceAll 0xB0 " degrees" text in
  let text := replaceAll 0xB1 "+/-" text in
  let text := replaceAll 0x2192 "->" text in
  let text := replaceAll 0x2190 "<-" text in
  let text := replaceAll 0x2013 "-" text in
  let text := replaceAll 0x2014 "-" text in
  let text := replaceAll 0xB2 "2" text in
  (* remove any remaining non-ASCII *)
  filter (fun c => N.leb c 0x7F) text.

Inductive DocOp : Type :=
| AddPage
| DrawText (line : list N) (x y : number).

Definition margin : number := Fin 50.
Definition lineH : number := Fin 14.

(** The loop over the lines, from the vertical position [y]. *)
Fixpoint layoutFrom (pageH : number) (lines : list (list N)) (y : number)
  : list DocOp :=
  match lines with
  | [] => []
  | line :: rest =>
      if (y + lineH > pageH - margin - Fin 30)%js
      then AddPage :: DrawText line margin margin
             :: layoutFrom pageH rest (margin + lineH)%js
      else DrawText line margin y :: layoutFrom pageH rest (y + lineH)%js
  end.

Definition layoutContent (pageH : number) (lines : list (list N))
  : list DocOp :=
  layoutFrom pageH lines (margin + Fin 70)%js.

(** The lines drawn, in order, and the positions they are drawn at. *)
Definition drawnLines (ops : list DocOp) : list (list N) :=
  flat_map (fun op => match op with
                      | DrawText l _ _ => [l]
                      | AddPage => []
                      end) ops.

Definition drawnAt (ops : list DocOp) : list number :=
  flat_map (fun op => match op with
                      | DrawText _ _ y => [y]
                      | AddPage => []
                      end) ops.

(** Whether the criterion of that name is met. *)
Definition criterionMet (nm : string) (ms : MetabolicSyndrome) : bool :=
  existsb (fun c => andb (String.eqb (name c) nm) (met c)) (criteria ms).

(** The same at age 49.5. *)
Definition highRiskAge49Half : Fields := {|
  age := "49.5"; weightKg := "80"; heightCm := "170"; waistCm := "90";
  sbp := "120"; dbp := "70"; tg := "100"; hdl := "50"; a1c := "5.0";
  g0 := "110"; g30 := ""; g60 := ""; g90 := ""; g120 := "150";
  i0 := ""; i30 := ""; i60 := ""; i90 := ""; i120 := ""
|}.

(** What the clean-up makes of one code unit, as the comments of the source
    list it: the dashes, the superscript 2, the comparison signs, the
    multiplication sign, the middle dot, beta, mu, the degree sign,
    plus-minus and the arrows are spelled in ASCII, any other code unit
    above 127 is dropped, and ASCII stays. *)
Definition sanitizeChar (c : N) : list N :=
  if N.eqb c 0x2014 then codeUnits "-"
  else if N.eqb c 0x2013 then codeUnits "-"
  else if N.eqb c 0xB2 then codeUnits "2"
  else if N.eqb c 0x2264 then codeUnits "<="
  else if N.eqb c 0x2265 then codeUnits ">="
  else if N.eqb c 0xD7 then codeUnits "x"
  else if N.eqb c 0xB7 then codeUnits "."
  else if N.eqb c 0x3B2 then codeUnits "beta"
  else if N.eqb c 0x3BC then codeUnits "u"
  else if N.eqb c 0xB0 then codeUnits " degrees"
  else if N.eqb c 0xB1 then codeUnits "+/-"
  else if N.eqb c 0x2192 then codeUnits "->"
  else if N.eqb c 0x2190 then codeUnits "<-"
  else if N.leb c 0x7F then [c]
  else [].

(** Three lines of text for the layout. *)
Definition threeLines : list (list N) :=
  [codeUnits "OGTT-DM Risk Stratifier"; codeUnits "-"; codeUnits "Age: 55"].

(** A list built by pushes: its first element, bounds on its length, and
    no empty string in it. *)
Definition Built (n m : nat) (first : string) (l : list string) : Prop :=
  hd_error l = Some first
  /\ (n <= List.length l <= m)%nat
  /\ forallb (fun s => negb (String.eqb s "")) l = true.

(** Whether an optional value is present. *)
Definition isSome {A : Type} (o : option A) : bool :=
  match o with Some _ => true | None => false end.

(** An Asian American patient with no history and no other risk factor. *)
Definition asianChoices : Choices := {|
  sex := female; ethnicity := AsianAmerican; onBPtx := false; hxGDM := false;
  hxPancreatitis := false; hasMASLD := false; hasPCOS := false;
  fhxT2D := false
|}.

(** * Properties *)

(** ** Numbers *)

Section NumberFacts.

Variables a b : Q.

Lemma lt_Fin : (Fin a < Fin b)%js = true <-> a < b.
Proof.
  unfold Num.lt, Num.cmp. rewrite Qlt_alt.
  destruct (a ?= b); split; congruence.
Qed.

Lemma le_Fin : (Fin a <= Fin b)%js = true <-> a <= b.
Proof.
  unfold Num.le, Num.cmp. rewrite Qle_alt.
  destruct (a ?= b); split; congruence.
Qed.

Lemma eq_Fin : (Fin a === Fin b)%js = true <-> a == b.
Proof.
  unfold Num.eq, Num.cmp. rewrite Qeq_alt.
  destruct (a ?= b); split; congruence.
Qed.

Lemma lt_Fin_false : (Fin a < Fin b)%js = false <-> b <= a.
Proof.
  rewrite <- not_true_iff_false, lt_Fin. split; intro H.
  - apply Qnot_lt_le, H.
  - apply Qle_not_lt, H.
Qed.

Lemma eq_Fin_false : (Fin a === Fin b)%js = false <-> ~ a == b.
Proof. rewrite <- not_true_iff_false, eq_Fin. tauto. Qed.

End NumberFacts.

Lemma gt_Fin (a b : Q) : (Fin a > Fin b)%js = true <-> b < a.
Proof. apply lt_Fin. Qed.

Lemma ge_Fin (a b : Q) : (Fin a >= Fin b)%js = true <-> b <= a.
Proof. apply le_Fin. Qed.

Lemma sub_Fin (a b : Q) : (Fin a - Fin b)%js = Fin (a - b).
Proof. reflexivity. Qed.

(** Dividing two finite numbers, the second not zero, is finite. *)
Lemma div_Fin (a b : Q) : ~ b == 0 -> (Fin a / Fin b)%js = Fin (a / b).
Proof.
  intro H. unfold Num.div.
  destruct (Qeq_bool b 0) eqn:E; [ | reflexivity ].
  apply Qeq_bool_iff in E. contradiction.
Qed.

(** ** [clampNum] *)

(** The clamp of a finite value: the bound it is beyond, else the value. *)
Lemma clamp_cases (lo hi q : Q) :
  lo <= hi ->
  exists r, Num.min (Fin hi) (Num.max (Fin lo) (Fin q)) = Fin r
            /\ lo <= r <= hi
            /\ (lo <= q <= hi -> r == q)
            /\ (q < lo -> r == lo)
            /\ (hi < q -> r == hi).
Proof.
  intro Hr. unfold Num.max, Num.min.
  destruct (Fin lo < Fin q)%js eqn:E1.
  - apply lt_Fin in E1.
    destruct (Fin q < Fin hi)%js eqn:E2.
    + apply lt_Fin in E2. exists q. repeat split; lra.
    + apply lt_Fin_false in E2. exists hi. repeat split; lra.
  - apply lt_Fin_false in E1.
    destruct (Fin lo < Fin hi)%js eqn:E2.
    + exists lo. repeat split; lra.
    + apply lt_Fin_false in E2. exists hi. repeat split; lra.
Qed.

(** What [clampNum] returns: nothing unless [Number(v)] is finite, else the
    value clamped. *)
Lemma clampNum_spec (v : raw) (lo hi : Q) :
  lo <= hi ->
  match Number v with
  | Fin q => exists r, clampNum v lo hi = Some (Fin r)
                       /\ lo <= r <= hi
                       /\ (lo <= q <= hi -> r == q)
                       /\ (q < lo -> r == lo)
                       /\ (hi < q -> r == hi)
  | _ => clampNum v lo hi = None
  end.
Proof.
  intro Hr. unfold clampNum.
  destruct (Number v) as [ | | | q]; try reflexivity.
  destruct (clamp_cases lo hi q Hr) as (r & Hm & H).
  exists r. cbn [Num.isFinite negb]. rewrite Hm. auto.
Qed.

Lemma clampNum_inRange (v : raw) (lo hi : Q) :
  lo <= hi -> inRange lo hi (clampNum v lo hi) = true.
Proof.
  intro Hr. pose proof (clampNum_spec v lo hi Hr) as H.
  destruct (Number v) as [ | | | q]; try (rewrite H; reflexivity).
  destruct H as (r & -> & (H1 & H2) & _). simpl.
  apply andb_true_intro. split; apply Qle_bool_iff; assumption.
Qed.

(** A text that is not a number, [NaN] and the infinities give nothing. *)
Lemma clampNum_absent (v : raw) (lo hi : number) :
  Num.isFinite (Number v) = false -> clampNum v lo hi = None.
Proof. unfold clampNum. intros ->. reflexivity. Qed.

(** Whatever the fields hold, every number the page works with is absent
    or within the range its field is clamped to. *)
Lemma normalize_normalized (f : Fields) (c : Choices) :
  normalized (normalize f c) = true.
Proof.
  unfold normalized, normalize, forallb; cbn [nAge nWeight nHeight nWaist
    nSBP nDBP nTG nHDL nA1c ng0 ng30 ng60 ng90 ng120 ni0 ni30 ni60 ni90 ni120].
  rewrite !clampNum_inRange; [ reflexivity | .. ]; lra.
Qed.

(** [Number] on some texts: blank text is zero, a numeral is its value, and
    anything else is [NaN]. *)
Example Number_on_text :
  map (fun s => Number (Text s))
    [""; "  "; "12"; " 12.50 "; ".5"; "5."; "-3e2"; "1e-2"; "0x1F"; "0b101";
     "0o17"; "+7"; "abc"; "."; "1e"; "12px"; "-0x1F"; "--7"; "1 2"; "e5";
     "1.2.3"; "Infinity"; "-Infinity"; "1e400"]
  = [Fin 0; Fin 0; Fin 12; Fin (1250 / 100); Fin (5 / 10); Fin 5;
     Fin (- (3 * 100)); Fin (1 / 100); Fin 31; Fin 5;
     Fin 15; Fin 7; NaN; NaN; NaN; NaN; NaN; NaN; NaN; NaN;
     NaN; PosInf; NegInf; PosInf].
Proof. vm_compute. reflexivity. Qed.

(** C3.  At the empty text, the initial state of every field, and at a text
    of spaces, [clampNum] returns the lower bound of the range, where the
    contract of the normaliser has a text without a number yield absent; a
    text such as [abc] does yield absent.  On the form nobody has typed in,
    the age is 10 and the HDL is 5, which meets the dyslipidemia risk factor
    of step 1. *)
Theorem clampNum_blank_text_is_not_absent :
  clampNum (Text "") 10 100 = Some (Fin 10)
  /\ clampNum (Text "   ") 10 100 = Some (Fin 10)
  /\ clampNum (Text "abc") 10 100 = None
  /\ nAge (normalize initialFields noChoices) = Some (Fin 10)
  /\ nHDL (normalize initialFields noChoices) = Some (Fin 5)
  /\ map ok (riskFactors (normalize initialFields noChoices))
     = [false; false; true; false; false; false].
Proof. repeat split; vm_compute; reflexivity. Qed.

(** C4.  For a range with [0 <= min <= max], [clampNum] of the empty string
    is [min], not absent: [Number] of the empty string is [0], which is
    finite and is clamped up to the lower bound.  As every field starts
    empty, the untouched form normalises to the minimum of each range. *)
Theorem clampNum_empty_string_is_min (lo hi : Q) :
  0 <= lo -> lo <= hi ->
  Number (Text "") = Fin 0
  /\ (exists r, clampNum (Text "") lo hi = Some (Fin r) /\ r == lo)
  /\ (forall c, normalize initialFields c = blankInputs c).
Proof.
  intros H0 Hr. split; [ reflexivity | split ].
  - pose proof (clampNum_spec (Text "") lo hi Hr) as H.
    change (Number (Text "")) with (Fin 0) in H.
    destruct H as (r & -> & _ & Hin & Hlo & _).
    exists r. split; [ reflexivity | ].
    destruct (Qlt_le_dec 0 lo) as [Hlt | Hle].
    + apply Hlo, Hlt.
    + rewrite Hin by lra. lra.
  - intro c. vm_compute. reflexivity.
Qed.

Lemma clampNum_empty_string_is_min_witness :
  Number (Text "") = Fin 0
  /\ (exists r, clampNum (Text "") 10 100 = Some (Fin r) /\ r == 10)
  /\ (forall c, normalize initialFields c = blankInputs c).
Proof.
  apply (clampNum_empty_string_is_min 10 100); unfold Qle; simpl; lia.
Defined.

(** ** Step 2 *)

Lemma fold_count_met (l : list Criterion) (n : nat) :
  fold_left (fun acc c => (acc + (if met c then 1 else 0))%nat) l n
  = (n + countMet (map met l))%nat.
Proof.
  revert n. induction l as [ | c l IH]; intro n; simpl.
  - unfold countMet. simpl. lia.
  - rewrite IH. unfold countMet. simpl. destruct (met c); simpl; lia.
Qed.

(** C5.  Step 2 evaluates five criteria, in a fixed order; a criterion whose
    inputs are missing is not met; treatment alone meets the blood-pressure
    criterion; the syndrome is present exactly when three or more are met. *)
Theorem metabolicSyndrome_five_criteria (inp : Inputs) :
  let ms := metabolicSyndrome inp in
  map (fun c => (name c, met c)) (criteria ms)
  = [ ("Waist circumference", waistCriterion inp);
      ("Triglycerides", tgCriterion inp);
      ("HDL", hdlCriterion inp);
      ("Blood pressure", bpCriterion inp);
      ("Fasting glucose", fpgCriterion inp) ]
  /\ List.length (criteria ms) = 5%nat
  /\ metCount ms = countMet (map met (criteria ms))
  /\ (present ms = true <-> (3 <= metCount ms)%nat)
  /\ (present ms = false <-> (metCount ms <= 2)%nat)
  /\ (sex (choices inp) = SexUnset \/ nWaist inp = None ->
      waistCriterion inp = false)
  /\ (nTG inp = None -> tgCriterion inp = false)
  /\ (sex (choices inp) = SexUnset \/ nHDL inp = None ->
      hdlCriterion inp = false)
  /\ (onBPtx (choices inp) = false ->
      nSBP inp = None \/ nDBP inp = None -> bpCriterion inp = false)
  /\ (ng0 inp = None -> fpgCriterion inp = false)
  /\ (onBPtx (choices inp) = true -> bpCriterion inp = true).
Proof.
  intro ms.
  assert (Hc : map (fun c => (name c, met c)) (criteria ms)
               = [ ("Waist circumference", waistCriterion inp);
                   ("Triglycerides", tgCriterion inp);
                   ("HDL", hdlCriterion inp);
                   ("Blood pressure", bpCriterion inp);
                   ("Fasting glucose", fpgCriterion inp) ]).
  { subst ms. clear.
    destruct inp as [? ? ? wa sb db t h ? g ? ? ? ? ? ? ? ? ? [s ? tx ? ? ? ? ?]].
    unfold metabolicSyndrome, waistCriterion, tgCriterion,
      hdlCriterion, bpCriterion, fpgCriterion.
    cbv zeta.
    cbn [criteria nWaist nSBP nDBP nTG nHDL ng0 choices sex onBPtx].
    destruct s, wa, t, h, tx, sb, db, g; reflexivity. }
  split; [ exact Hc | ].
  split. { rewrite <- (length_map (fun c => (name c, met c))), Hc. reflexivity. }
  assert (Hn : metCount ms = countMet (map met (criteria ms))).
  { subst ms. unfold metabolicSyndrome. cbv zeta.
    cbn [metCount criteria]. rewrite fold_count_met. reflexivity. }
  split; [ exact Hn | ].
  assert (Hp : present ms = (3 <=? metCount ms)%nat) by reflexivity.
  split. { rewrite Hp. apply Nat.leb_le. }
  split. { rewrite Hp, Nat.leb_gt. lia. }
  unfold waistCriterion, tgCriterion, hdlCriterion, bpCriterion, fpgCriterion.
  repeat split.
  - intros [-> | ->]; [ reflexivity | destruct (sex (choices inp)); reflexivity ].
  - intros ->. reflexivity.
  - intros [-> | ->]; [ reflexivity | destruct (sex (choices inp)); reflexivity ].
  - intros -> [-> | ->]; [ reflexivity | destruct (nSBP inp); reflexivity ].
  - intros ->. reflexivity.
  - intros ->. reflexivity.
Qed.

(** ** Step 1 *)

(** C6, as stated, fails on the code: with systolic 140 and no diastolic
    value the hypertension risk factor does not hold, and the OGTT is not
    indicated, where it is once a diastolic value is entered. *)
Lemma hypertension_needs_both_readings :
  let inp := normalize systolicOnly noChoices in
  nSBP inp = Some (Fin 140)
  /\ nDBP inp = None
  /\ hypertensionFactor inp = false
  /\ indicated (ogttIndication inp) = false
  /\ indicated (ogttIndication (normalize bothReadings noChoices)) = true
  /\ ~ (forall (i : Inputs) (s : number),
          nSBP i = Some s -> (s >= Fin 130)%js = true ->
          hypertensionFactor i = true).
Proof.
  intro inp.
  assert (Hs : nSBP inp = Some (Fin 140)) by (vm_compute; reflexivity).
  assert (Hh : hypertensionFactor inp = false) by (vm_compute; reflexivity).
  split; [ exact Hs | split; [ vm_compute; reflexivity | split ] ].
  - exact Hh.
  - split; [ vm_compute; reflexivity | split; [ vm_compute; reflexivity | ] ].
    intro H. specialize (H inp (Fin 140) Hs eq_refl).
    rewrite Hh in H. discriminate H.
Qed.

(** C6, amended.  The hypertension risk factor of step 1 holds exactly when
    the patient is on treatment, or both blood pressures are present and
    the systolic is at least 130 or the diastolic at least 80. *)
Theorem hypertensionFactor_iff (inp : Inputs) :
  hypertensionFactor inp = true
  <-> onBPtx (choices inp) = true
      \/ exists s d, nSBP inp = Some s /\ nDBP inp = Some d
                     /\ ((s >= Fin 130)%js = true \/ (d >= Fin 80)%js = true).
Proof.
  unfold hypertensionFactor, riskFactors; cbn [ok].
  rewrite orb_true_iff. split.
  - intros [H | H]; [ right | left; exact H ].
    destruct (nSBP inp) as [s | ]; [ | discriminate ].
    destruct (nDBP inp) as [d | ]; [ | discriminate ].
    exists s, d. apply orb_true_iff in H. auto.
  - intros [H | (s & d & -> & -> & H)]; [ right; exact H | left ].
    apply orb_true_iff, H.
Qed.

(** ** Step 3 *)

(** The rule blocks against the rule table: the flags of severity danger are
    the rows that matched, in table order, and they decide [highRisk] and
    [exactRisk]. *)
Lemma riskRules_table (IFG IGT oneHourHigh a1cHigh igiLow firstPhaseLow metS : bool) :
  let r := riskRules IFG IGT oneHourHigh a1cHigh igiLow firstPhaseLow metS in
  map Flag.exactRisk
    (filter (fun f => isDanger (Flag.severity f)) (Risk.flags r))
  = map snd (filter fst (dangerTable r))
  /\ Risk.highRisk r = existsb fst (dangerTable r)
  /\ Risk.exactRisk r = firstMatch (dangerTable r)
  /\ Risk.exactRisk r
     = match find (fun f => isDanger (Flag.severity f)) (Risk.flags r) with
       | Some f => Flag.exactRisk f
       | None => None
       end
  /\ forallb (fun f => match Flag.severity f with
                       | danger | warn => true
                       | neutral => false
                       end) (Risk.flags r) = true.
Proof.
  destruct IFG, IGT, oneHourHigh, a1cHigh, igiLow, firstPhaseLow, metS;
    vm_compute; repeat split.
Qed.

(** The exact risk against the conditions of the first three rule blocks,
    and the rows of the rule table against the seven derived booleans. *)
Lemma riskRules_exactRisk (IFG IGT oneHourHigh a1cHigh igiLow firstPhaseLow metS : bool) :
  let r := riskRules IFG IGT oneHourHigh a1cHigh igiLow firstPhaseLow metS in
  Risk.exactRisk r
  = (if andb (andb IGT oneHourHigh) metS then Some "52.8%"
     else if andb IFG IGT then Some ">50%"
     else if andb (andb IFG oneHourHigh) metS then Some "37.8%"
     else None)
  /\ dangerTable r
     = [ (andb (andb IGT oneHourHigh) metS, Some "52.8%");
         (andb IFG IGT, Some ">50%");
         (andb (andb IFG oneHourHigh) metS, Some "37.8%");
         (andb (andb (orb IGT IFG) oneHourHigh) a1cHigh, None);
         (andb (andb (orb IGT IFG) oneHourHigh) (orb igiLow firstPhaseLow),
          None) ].
Proof.
  split; [ | reflexivity ].
  destruct IFG, IGT, oneHourHigh, a1cHigh, igiLow, firstPhaseLow, metS;
    reflexivity.
Qed.

Section Step3.

Variable Math_sqrt : number -> number.


Lemma highRisk_flags (inp : Inputs) :
  Risk.highRisk (risk Math_sqrt inp)
  = existsb (fun f => isDanger (Flag.severity f)) (Risk.flags (risk Math_sqrt inp)).
Proof. reflexivity. Qed.

Lemma highRisk_table (inp : Inputs) :
  Risk.highRisk (risk Math_sqrt inp) = existsb fst (dangerTable (risk Math_sqrt inp)).
Proof. apply riskRules_table. Qed.

Lemma exactRisk_table (inp : Inputs) :
  Risk.exactRisk (risk Math_sqrt inp) = firstMatch (dangerTable (risk Math_sqrt inp)).
Proof. apply riskRules_table. Qed.

Lemma flags_danger_or_warn (inp : Inputs) (f : Flag.t) :
  In f (Risk.flags (risk Math_sqrt inp)) ->
  Flag.severity f = danger \/ Flag.severity f = warn.
Proof.
  intro Hin.
  pose proof (riskRules_table (isIFG (ng0 inp)) (isIGT (ng120 inp))
    (Risk.oneHourHigh (risk Math_sqrt inp)) (Risk.a1cHigh (risk Math_sqrt inp))
    (Risk.igiLow (risk Math_sqrt inp)) (Risk.firstPhaseLow (risk Math_sqrt inp))
    (present (metabolicSyndrome inp))) as (_ & _ & _ & _ & H).
  rewrite forallb_forall in H. specialize (H f Hin).
  destruct (Flag.severity f); auto; discriminate.
Qed.

(** C1.  [highRisk] is true exactly when a flag of severity danger is in
    the flag list, which is exactly when a danger row of the rule table
    matched; it is false exactly when every flag is of severity warn. *)
Theorem highRisk_iff_danger (inp : Inputs) :
  let r := risk Math_sqrt inp in
  (Risk.highRisk r = true
   <-> exists f, In f (Risk.flags r) /\ Flag.severity f = danger)
  /\ (Risk.highRisk r = true
      <-> exists row, In row (dangerTable r) /\ fst row = true)
  /\ (Risk.highRisk r = false
      <-> forall f, In f (Risk.flags r) -> Flag.severity f = warn).
Proof.
  intro r. subst r. split; [ | split ].
  - rewrite highRisk_flags, existsb_exists.
    split; intros (f & Hin & Hd); exists f; split; trivial.
    + destruct (Flag.severity f); try discriminate; reflexivity.
    + rewrite Hd. reflexivity.
  - rewrite highRisk_table, existsb_exists. reflexivity.
  - rewrite highRisk_flags, <- not_true_iff_false, existsb_exists. split.
    + intros Hno f Hin.
      destruct (flags_danger_or_warn inp f Hin) as [Hs | Hs]; [ | exact Hs ].
      exfalso. apply Hno. exists f. rewrite Hs. split; trivial.
    + intros Hall (f & Hin & Hd). rewrite (Hall f Hin) in Hd. discriminate.
Qed.

(** C2.  [exactRisk] is the exact risk of the first rule block, in table
    order, whose condition the inputs meet: 52.8% when the 2-hour glucose
    is 140-199 with a 1-hour glucose above 155 and the metabolic syndrome,
    else >50% when the fasting glucose is 100-125 and the 2-hour glucose
    140-199, else 37.8% when the fasting glucose is 100-125 with a 1-hour
    glucose above 155 and the metabolic syndrome, else absent.  So when the
    first and the second rule both fire the exact risk is 52.8%.  These
    conditions are the first three rows of the rule table, and the exact
    risk is that of the first flag of severity danger. *)
Theorem exactRisk_first_match (inp : Inputs) :
  let r := risk Math_sqrt inp in
  let IFG := isIFG (ng0 inp) in
  let IGT := isIGT (ng120 inp) in
  let oneHourHigh :=
    match ng60 inp with Some g => (g > Fin 155)%js | None => false end in
  let metS := present (metabolicSyndrome inp) in
  let rule1 := andb (andb IGT oneHourHigh) metS in
  let rule2 := andb IFG IGT in
  let rule3 := andb (andb IFG oneHourHigh) metS in
  Risk.exactRisk r
  = (if rule1 then Some "52.8%"
     else if rule2 then Some ">50%"
     else if rule3 then Some "37.8%"
     else None)
  /\ (rule1 = true -> rule2 = true -> Risk.exactRisk r = Some "52.8%")
  /\ (rule1 = false -> rule2 = false -> rule3 = false ->
      Risk.exactRisk r = None)
  /\ (forall g0 g60 g120 : Q,
         ng0 inp = Some (Fin g0) -> ng60 inp = Some (Fin g60) ->
         ng120 inp = Some (Fin g120) ->
         100 <= g0 < 126 -> 155 < g60 -> 140 <= g120 < 200 ->
         Risk.exactRisk r = Some (if metS then "52.8%" else ">50%"))
  /\ firstn 3 (dangerTable r)
     = [ (rule1, Some "52.8%"); (rule2, Some ">50%"); (rule3, Some "37.8%") ]
  /\ Risk.exactRisk r = firstMatch (dangerTable r)
  /\ Risk.exactRisk r
     = match find (fun f => isDanger (Flag.severity f)) (Risk.flags r) with
       | Some f => Flag.exactRisk f
       | None => None
       end.
Proof.
  intros r IFG IGT oneHourHigh metS rule1 rule2 rule3.
  destruct (riskRules_exactRisk IFG IGT oneHourHigh
              (Risk.a1cHigh r) (Risk.igiLow r) (Risk.firstPhaseLow r) metS)
    as [Hr Ht].
  change (riskRules _ _ _ _ _ _ _) with r in Hr, Ht.
  fold rule1 rule2 rule3 in Hr, Ht.
  split; [ exact Hr | ].
  split; [ intros H1 _; rewrite Hr, H1; reflexivity | ].
  split; [ intros H1 H2 H3; rewrite Hr, H1, H2, H3; reflexivity | ].
  split.
  - intros g0 g60 g120 E0 E60 E120 [H0a H0b] H60 [H120a H120b].
    assert (HIFG : IFG = true).
    { unfold IFG, isIFG. rewrite E0. apply andb_true_intro.
      split; [ apply ge_Fin | apply lt_Fin ]; assumption. }
    assert (HIGT : IGT = true).
    { unfold IGT, isIGT. rewrite E120. apply andb_true_intro.
      split; [ apply ge_Fin | apply lt_Fin ]; assumption. }
    assert (H1h : oneHourHigh = true).
    { unfold oneHourHigh. rewrite E60. apply gt_Fin, H60. }
    rewrite Hr. unfold rule1, rule2. rewrite HIFG, HIGT, H1h.
    destruct metS; reflexivity.
  - split; [ rewrite Ht; reflexivity | ].
    split; [ apply exactRisk_table | apply riskRules_table ].
Qed.

End Step3.

(** ** Indices *)

Lemma inRange_cases (lo hi : Q) (o : option number) :
  inRange lo hi o = true ->
  o = None \/ exists q, o = Some (Fin q) /\ lo <= q <= hi.
Proof.
  destruct o as [[ | | | q] | ]; simpl; try discriminate; auto.
  intro H. apply andb_prop in H. destruct H as [H1 H2].
  apply Qle_bool_iff in H1, H2. right. exists q. auto.
Qed.

Lemma finiteOnes_finite (vals : list (option number)) :
  Forall (fun n => Num.isFinite n = true) (finiteOnes vals).
Proof.
  induction vals as [ | [n | ] vals IH]; simpl; auto.
  destruct (Num.isFinite n) eqn:E; simpl; auto.
Qed.

Lemma sum_finite (l : list number) :
  Forall (fun n => Num.isFinite n = true) l ->
  forall acc : Q, exists s : Q, fold_left Num.add l (Fin acc) = Fin s.
Proof.
  induction 1 as [ | n l Hn _ IH]; intro acc; simpl.
  - exists acc. reflexivity.
  - destruct n as [ | | | q]; try discriminate. apply IH.
Qed.

(** The mean never is [NaN] or infinite: it divides by a length that is not
    zero. *)
Lemma mean_finite (vals : list (option number)) :
  finiteOrAbsent (mean vals) = true.
Proof.
  unfold mean. pose proof (finiteOnes_finite vals) as Hf.
  destruct (finiteOnes vals) as [ | n l] eqn:E; [ reflexivity | ].
  destruct (sum_finite (n :: l) Hf 0) as (s & Hs).
  rewrite Hs, div_Fin; [ reflexivity | ].
  unfold Qeq. simpl. lia.
Qed.

Lemma safeDiv_finite (a b : option number) :
  finiteOrAbsent (safeDiv a b) = true.
Proof.
  destruct a as [[ | | | x] | ], b as [[ | | | y] | ]; try reflexivity.
  unfold safeDiv. cbn [Num.isFinite negb orb].
  destruct (Fin y === Fin 0)%js eqn:E; [ reflexivity | ].
  apply eq_Fin_false in E. rewrite div_Fin by exact E. reflexivity.
Qed.

Section IndexFacts.

Variable Math_sqrt : number -> number.

(** The guards of the Matsuda index leave a finite, non-zero
    denominator, whatever the square root returns. *)
Lemma matsuda_finite (inp : Inputs) :
  finiteOrAbsent (matsuda Math_sqrt inp) = true.
Proof.
  unfold matsuda.
  destruct (ng0 inp), (ni0 inp), (gMean inp), (iMean inp); try reflexivity.
  cbv zeta. destruct (sqrt Math_sqrt _) as [ | | | d]; try reflexivity.
  cbn [Num.isFinite negb orb].
  destruct (Fin d === Fin 0)%js eqn:E; [ reflexivity | ].
  apply eq_Fin_false in E. rewrite div_Fin by exact E. reflexivity.
Qed.

Lemma igi_cases (inp : Inputs) (i30 i0 g30 g0 : Q) :
  ni30 inp = Some (Fin i30) -> ni0 inp = Some (Fin i0) ->
  ng30 inp = Some (Fin g30) -> ng0 inp = Some (Fin g0) ->
  (g30 == g0 -> igi inp = None)
  /\ (~ g30 == g0 -> igi inp = Some (Fin ((i30 - i0) / (g30 - g0)))).
Proof.
  intros H1 H2 H3 H4. unfold igi. rewrite H1, H2, H3, H4. cbv zeta.
  rewrite !sub_Fin.
  destruct (Fin (g30 - g0) === Fin 0)%js eqn:E.
  - apply eq_Fin in E. split; [ reflexivity | ]. intro H. exfalso. lra.
  - apply eq_Fin_false in E. split; [ intro H; exfalso; lra | ].
    intros _. rewrite div_Fin by exact E. reflexivity.
Qed.

Lemma homaBeta_cases (inp : Inputs) (i0 g0 : Q) :
  ni0 inp = Some (Fin i0) -> ng0 inp = Some (Fin g0) ->
  (g0 == 63 -> homaBeta inp = None)
  /\ (~ g0 == 63 -> homaBeta inp = Some (Fin ((i0 * 360) / (g0 - 63)))).
Proof.
  intros H1 H2. unfold homaBeta. rewrite H1, H2. cbv zeta.
  rewrite !sub_Fin. cbn [Num.mul].
  destruct (Fin (g0 - 63) === Fin 0)%js eqn:E.
  - apply eq_Fin in E. split; [ reflexivity | ]. intro H. exfalso. lra.
  - apply eq_Fin_false in E. split; [ intro H; exfalso; lra | ].
    intros _. rewrite div_Fin by exact E. reflexivity.
Qed.

Lemma igi_finite (inp : Inputs) :
  finiteOrAbsent (ni30 inp) = true -> finiteOrAbsent (ni0 inp) = true ->
  finiteOrAbsent (ng30 inp) = true -> finiteOrAbsent (ng0 inp) = true ->
  finiteOrAbsent (igi inp) = true.
Proof.
  unfold igi.
  destruct (ni30 inp) as [[ | | | i30] | ], (ni0 inp) as [[ | | | i0] | ],
    (ng30 inp) as [[ | | | g30] | ], (ng0 inp) as [[ | | | g0] | ];
    try discriminate; try reflexivity.
  intros _ _ _ _. cbv zeta. rewrite !sub_Fin.
  destruct (Fin (g30 - g0) === Fin 0)%js eqn:E; [ reflexivity | ].
  apply eq_Fin_false in E. rewrite div_Fin by exact E. reflexivity.
Qed.

Lemma homaBeta_finite (inp : Inputs) :
  finiteOrAbsent (ni0 inp) = true -> finiteOrAbsent (ng0 inp) = true ->
  finiteOrAbsent (homaBeta inp) = true.
Proof.
  unfold homaBeta.
  destruct (ni0 inp) as [[ | | | i0] | ], (ng0 inp) as [[ | | | g0] | ];
    try discriminate; try reflexivity.
  intros _ _. cbv zeta. rewrite !sub_Fin. cbn [Num.mul].
  destruct (Fin (g0 - 63) === Fin 0)%js eqn:E; [ reflexivity | ].
  apply eq_Fin_false in E. rewrite div_Fin by exact E. reflexivity.
Qed.

Lemma stumvoll_finite (inp : Inputs) :
  finiteOrAbsent (ni30 inp) = true -> finiteOrAbsent (ni0 inp) = true ->
  finiteOrAbsent (ng30 inp) = true ->
  finiteOrAbsent (stumvoll1 inp) = true
  /\ finiteOrAbsent (stumvoll2 inp) = true.
Proof.
  unfold stumvoll1, stumvoll2, i30_pmol, i0_pmol, g30_mmol.
  destruct (ni30 inp) as [[ | | | i30] | ], (ni0 inp) as [[ | | | i0] | ],
    (ng30 inp) as [[ | | | g30] | ];
    try discriminate; split; reflexivity.
Qed.

Lemma pgAucWeighted_finite (inp : Inputs) :
  finiteOrAbsent (ng0 inp) = true -> finiteOrAbsent (ng30 inp) = true ->
  finiteOrAbsent (ng60 inp) = true -> finiteOrAbsent (ng120 inp) = true ->
  finiteOrAbsent (pgAucWeighted inp) = true.
Proof.
  unfold pgAucWeighted.
  destruct (ng0 inp) as [[ | | | a] | ], (ng30 inp) as [[ | | | b] | ],
    (ng60 inp) as [[ | | | c] | ], (ng120 inp) as [[ | | | d] | ];
    try discriminate; reflexivity.
Qed.

Lemma di_finite (inp : Inputs) :
  finiteOrAbsent (igi inp) = true ->
  finiteOrAbsent (di Math_sqrt inp) = true.
Proof.
  intro Hi. pose proof (matsuda_finite inp) as Hm. unfold di.
  destruct (matsuda Math_sqrt inp) as [[ | | | m] | ],
    (igi inp) as [[ | | | i] | ]; try discriminate; reflexivity.
Qed.

End IndexFacts.

Lemma inRange_finite (lo hi : Q) (o : option number) :
  inRange lo hi o = true -> finiteOrAbsent o = true.
Proof. destruct o as [[ | | | q] | ]; simpl; congruence. Qed.

(** Normalised inputs hold no [NaN] and no infinity. *)
Lemma normalized_finite (inp : Inputs) :
  normalized inp = true ->
  Forall (fun o => finiteOrAbsent o = true)
    [ nWeight inp; nHeight inp; ng0 inp; ng30 inp; ng60 inp; ng120 inp;
      ni0 inp; ni30 inp ].
Proof.
  unfold normalized. cbn [forallb]. rewrite !andb_true_iff.
  intro H. repeat constructor; eapply inRange_finite; apply H.
Qed.

Lemma bmi_finite (inp : Inputs) :
  finiteOrAbsent (nWeight inp) = true -> finiteOrAbsent (nHeight inp) = true ->
  finiteOrAbsent (bmi inp) = true.
Proof.
  unfold bmi.
  destruct (nWeight inp) as [[ | | | w] | ], (nHeight inp) as [[ | | | h] | ];
    try discriminate; try reflexivity.
  intros _ _. cbv zeta.
  change (Fin h / Fin 100)%js with (Fin (h / 100)).
  cbn [Num.falsy Num.mul].
  destruct (Qeq_bool (h / 100) 0) eqn:E; [ reflexivity | ].
  apply Qeq_bool_neq in E. rewrite div_Fin; [ reflexivity | ].
  intro Hz. apply Qmult_integral in Hz. tauto.
Qed.

Section LaterSteps.

Variable Math_sqrt : number -> number.


(** C7.  The weighted glucose area under the curve is
    [(G0 + 2 G30 + 3 G60 + 2 G120) / 4] when the four values are present
    and absent otherwise; inputs that agree on the four values have the
    same area, whatever their 90-minute values. *)
Theorem pgAucWeighted_formula (inp : Inputs) :
  (forall a b c d : Q,
      ng0 inp = Some (Fin a) -> ng30 inp = Some (Fin b) ->
      ng60 inp = Some (Fin c) -> ng120 inp = Some (Fin d) ->
      Indices.pgAucWeighted (indices Math_sqrt inp)
      = Some (Fin ((a + 2 * b + 3 * c + 2 * d) / 4)))
  /\ (ng0 inp = None \/ ng30 inp = None \/ ng60 inp = None
      \/ ng120 inp = None ->
      Indices.pgAucWeighted (indices Math_sqrt inp) = None)
  /\ (forall inp' : Inputs,
         ng0 inp' = ng0 inp -> ng30 inp' = ng30 inp ->
         ng60 inp' = ng60 inp -> ng120 inp' = ng120 inp ->
         Indices.pgAucWeighted (indices Math_sqrt inp')
         = Indices.pgAucWeighted (indices Math_sqrt inp)).
Proof.
  cbn [indices Indices.pgAucWeighted].
  unfold pgAucWeighted. repeat split.
  - intros a b c d -> -> -> ->. reflexivity.
  - intros [-> | [-> | [-> | ->]]];
      repeat match goal with
             | |- context [match ?o with Some _ => _ | None => _ end] =>
                 destruct o
             end; reflexivity.
  - intros inp' -> -> -> ->. reflexivity.
Qed.

(** C8, amended.  With step 3 at high risk and the age known, the
    weight-loss target is the pair [weight x 0.05, weight x 0.10] whenever
    the weight is known, whatever the age band; it is absent when the
    weight is absent, when the age is unknown, or when step 3 is not at
    high risk. *)
Theorem weightLoss_target (inp : Inputs) :
  Step4.weightLoss (step4 Math_sqrt inp)
  = if Risk.highRisk (risk Math_sqrt inp) then
      match nAge inp, nWeight inp with
      | Some _, Some w =>
          Some {| Step4.lowKg := (w * Fin 0.05)%js;
                  Step4.highKg := (w * Fin 0.10)%js |}
      | _, _ => None
      end
    else None.
Proof.
  unfold step4.
  destruct (Risk.highRisk (risk Math_sqrt inp)); [ | reflexivity ].
  destruct (nAge inp); [ | reflexivity ].
  destruct (nWeight inp); reflexivity.
Qed.

(** A saved baseline holds a weight that is absent or within the range
    the weight is clamped to, so above zero. *)
Lemma saved_weight_in_range (ts : string) (inp : Inputs) :
  normalized inp = true ->
  exists b, saveBaseline Math_sqrt ts inp = Some b
            /\ inRange 20 300 (Baseline.weightKg b) = true.
Proof.
  intro Hn. eexists. split; [ reflexivity | ].
  cbn [Baseline.weightKg]. unfold normalized in Hn. cbn [forallb] in Hn.
  rewrite !andb_true_iff in Hn. apply Hn.
Qed.


(** C10.  On normalised inputs: the insulinogenic index is absent when
    G30 equals G0, whatever the insulin values, or an operand is absent,
    and is a finite number otherwise; HOMA-beta likewise at G0 = 63; and
    every index, and the BMI, is absent or finite, never [NaN] or
    infinite. *)
Theorem zero_denominator_is_absent (inp : Inputs) :
  normalized inp = true ->
  (forall g30 g0 : Q,
      ng30 inp = Some (Fin g30) -> ng0 inp = Some (Fin g0) -> g30 == g0 ->
      Indices.igi (indices Math_sqrt inp) = None)
  /\ (ni30 inp = None \/ ni0 inp = None \/ ng30 inp = None
      \/ ng0 inp = None -> Indices.igi (indices Math_sqrt inp) = None)
  /\ (forall i30 i0 g30 g0 : Q,
         ni30 inp = Some (Fin i30) -> ni0 inp = Some (Fin i0) ->
         ng30 inp = Some (Fin g30) -> ng0 inp = Some (Fin g0) ->
         ~ g30 == g0 ->
         exists q : Q, Indices.igi (indices Math_sqrt inp) = Some (Fin q))
  /\ (forall g0 : Q,
         ng0 inp = Some (Fin g0) -> g0 == 63 ->
         Indices.homaBeta (indices Math_sqrt inp) = None)
  /\ (ni0 inp = None \/ ng0 inp = None ->
      Indices.homaBeta (indices Math_sqrt inp) = None)
  /\ (forall i0 g0 : Q,
         ni0 inp = Some (Fin i0) -> ng0 inp = Some (Fin g0) ->
         ~ g0 == 63 ->
         exists q : Q,
           Indices.homaBeta (indices Math_sqrt inp) = Some (Fin q))
  /\ allIndicesFinite (indices Math_sqrt inp) = true
  /\ finiteOrAbsent (bmi inp) = true.
Proof.
  intro Hn. apply normalized_finite in Hn.
  inversion_clear Hn as [ | ? ? Fw Hn1].
  inversion_clear Hn1 as [ | ? ? Fh Hn].
  inversion_clear Hn as [ | ? ? Fg0 Hn1].
  inversion_clear Hn1 as [ | ? ? Fg30 Hn].
  inversion_clear Hn as [ | ? ? Fg60 Hn1].
  inversion_clear Hn1 as [ | ? ? Fg120 Hn].
  inversion_clear Hn as [ | ? ? Fi0 Hn1].
  inversion_clear Hn1 as [ | ? ? Fi30 _].
  cbn [indices Indices.igi Indices.homaBeta].
  split; [ | split; [ | split; [ | split; [ | split; [ | split; [ | split ]]]]]].
  - intros g30 g0 E30 E0 He.
    destruct (ni30 inp) as [[ | | | i30] | ] eqn:I30; try discriminate;
      [ | unfold igi; rewrite I30; reflexivity ].
    destruct (ni0 inp) as [[ | | | i0] | ] eqn:I0; try discriminate;
      [ | unfold igi; rewrite I30, I0; reflexivity ].
    apply (igi_cases inp i30 i0 g30 g0 I30 I0 E30 E0), He.
  - unfold igi. intros [-> | [-> | [-> | ->]]];
      repeat match goal with
             | |- context [match ?o with Some _ => _ | None => _ end] =>
                 destruct o
             end; reflexivity.
  - intros i30 i0 g30 g0 I30 I0 E30 E0 He.
    exists ((i30 - i0) / (g30 - g0)).
    apply (igi_cases inp i30 i0 g30 g0 I30 I0 E30 E0), He.
  - intros g0 E0 He.
    destruct (ni0 inp) as [[ | | | i0] | ] eqn:I0; try discriminate;
      [ | unfold homaBeta; rewrite I0; reflexivity ].
    apply (homaBeta_cases inp i0 g0 I0 E0), He.
  - unfold homaBeta. intros [-> | ->]; [ reflexivity | ].
    destruct (ni0 inp); reflexivity.
  - intros i0 g0 I0 E0 He. exists ((i0 * 360) / (g0 - 63)).
    apply (homaBeta_cases inp i0 g0 I0 E0), He.
  - unfold allIndicesFinite.
    cbn [forallb indices
           Indices.gMean Indices.iMean Indices.homaIR
           Indices.homaIRCutoff Indices.matsuda Indices.igi
           Indices.stumvoll1 Indices.stumvoll2 Indices.di
           Indices.homaBeta Indices.pgAucWeighted].
    pose proof (igi_finite inp Fi30 Fi0 Fg30 Fg0) as Hi.
    destruct (stumvoll_finite inp Fi30 Fi0 Fg30) as [Hs1 Hs2].
    unfold gMean, iMean.
    rewrite !mean_finite, (matsuda_finite Math_sqrt inp), Hi, Hs1, Hs2,
      (di_finite Math_sqrt inp Hi), (homaBeta_finite inp Fi0 Fg0),
      (pgAucWeighted_finite inp Fg0 Fg30 Fg60 Fg120).
    assert (Hh : finiteOrAbsent (homaIR inp) = true).
    { unfold homaIR. destruct (ng0 inp), (ni0 inp); try reflexivity.
      apply safeDiv_finite. }
    rewrite Hh.
    unfold homaIRCutoff.
    destruct (hasMASLD (choices inp)); [ reflexivity | ].
    destruct (defined_and (bmi inp) _); reflexivity.
  - apply bmi_finite; assumption.
Qed.

End LaterSteps.

(** ** The claims on the sample forms *)

Example three_of_five_is_present :
  metCount (metabolicSyndrome (normalize threeCriteriaForm treatedChoices)) = 3%nat
  /\ present (metabolicSyndrome (normalize threeCriteriaForm treatedChoices)) = true
  /\ metCount (metabolicSyndrome (normalize threeCriteriaForm maleChoices)) = 2%nat
  /\ present (metabolicSyndrome (normalize threeCriteriaForm maleChoices)) = false.
Proof. repeat split; vm_compute; reflexivity. Qed.

Lemma metabolicSyndrome_five_criteria_witness :
  let inp := normalize threeCriteriaForm treatedChoices in
  List.length (criteria (metabolicSyndrome inp)) = 5%nat
  /\ bpCriterion inp = true
  /\ present (metabolicSyndrome inp) = true.
Proof.
  intro inp.
  destruct (metabolicSyndrome_five_criteria inp)
    as (_ & Hlen & _ & Hp & _ & _ & _ & _ & _ & _ & Hbp).
  split; [ exact Hlen | split ].
  - apply Hbp. reflexivity.
  - apply Hp. vm_compute. apply le_n.
Defined.

Lemma highRisk_iff_danger_witness :
  let r := risk approxSqrt (normalize highRiskForm maleChoices) in
  let w := risk approxSqrt (normalize fastingOnlyForm maleChoices) in
  (exists f, In f (Risk.flags r) /\ Flag.severity f = danger)
  /\ map Flag.severity (Risk.flags w) = [warn]
  /\ Risk.highRisk w = false.
Proof.
  intros r w. split; [ | split ].
  - apply (highRisk_iff_danger approxSqrt (normalize highRiskForm maleChoices)).
    vm_compute. reflexivity.
  - vm_compute. reflexivity.
  - apply (highRisk_iff_danger approxSqrt (normalize fastingOnlyForm maleChoices)).
    intros f Hin. vm_compute in Hin. destruct Hin as [<- | []]. reflexivity.
Defined.

Lemma exactRisk_first_match_witness :
  let both := normalize highRiskForm maleChoices in
  let second := normalize highRiskNoAge maleChoices in
  let none := normalize repeatForm maleChoices in
  (isIGT (ng120 both) = true /\ isIFG (ng0 both) = true
   /\ present (metabolicSyndrome both) = true
   /\ Risk.exactRisk (risk approxSqrt both) = Some "52.8%")
  /\ (isIGT (ng120 second) = true /\ isIFG (ng0 second) = true
      /\ ng60 second = Some (Fin 40)
      /\ Risk.exactRisk (risk approxSqrt second) = Some ">50%")
  /\ (isIGT (ng120 none) = false /\ isIFG (ng0 none) = false
      /\ Risk.exactRisk (risk approxSqrt none) = None).
Proof.
  intros both second none.
  destruct (exactRisk_first_match approxSqrt both)
    as (_ & Hboth & _ & _).
  destruct (exactRisk_first_match approxSqrt second)
    as (Hsecond & _).
  destruct (exactRisk_first_match approxSqrt none)
    as (_ & _ & Hnone & _).
  split; [ | split ].
  - split; [ vm_compute; reflexivity | ].
    split; [ vm_compute; reflexivity | ].
    split; [ vm_compute; reflexivity | ].
    apply Hboth; vm_compute; reflexivity.
  - split; [ vm_compute; reflexivity | ].
    split; [ vm_compute; reflexivity | ].
    split; [ vm_compute; reflexivity | ].
    rewrite Hsecond. vm_compute. reflexivity.
  - split; [ vm_compute; reflexivity | ].
    split; [ vm_compute; reflexivity | ].
    apply Hnone; vm_compute; reflexivity.
Defined.

Lemma hypertensionFactor_iff_witness :
  hypertensionFactor (normalize bothReadings noChoices) = true.
Proof.
  apply hypertensionFactor_iff. right.
  exists (Fin 140), (Fin 70). repeat split; try (vm_compute; reflexivity).
  left. vm_compute. reflexivity.
Defined.

Lemma pgAucWeighted_formula_witness :
  let inp := normalize aucForm noChoices in
  let inp' := normalize aucFormNo90 noChoices in
  ng90 inp = Some (Fin 600) /\ ng90 inp' = None
  /\ Indices.pgAucWeighted (indices approxSqrt inp)
     = Some (Fin ((90 + 2 * 150 + 3 * 180 + 2 * 130) / 4))
  /\ (90 + 2 * 150 + 3 * 180 + 2 * 130) / 4 == 297.5
  /\ Indices.pgAucWeighted (indices approxSqrt inp')
     = Indices.pgAucWeighted (indices approxSqrt inp).
Proof.
  intros inp inp'.
  destruct (pgAucWeighted_formula approxSqrt inp) as (Hf & _ & Hsame).
  split; [ vm_compute; reflexivity | split; [ vm_compute; reflexivity | ] ].
  split; [ apply Hf; vm_compute; reflexivity | split ].
  - vm_compute. reflexivity.
  - apply Hsame; vm_compute; reflexivity.
Defined.

(** C8, as stated, fails on the code: at high risk, with a weight of 80 kg
    and no age, no weight-loss target is reported. *)
Lemma weightLoss_absent_without_age :
  let inp := normalize highRiskNoAge noChoices in
  Risk.highRisk (risk approxSqrt inp) = true
  /\ nWeight inp = Some (Fin 80)
  /\ nAge inp = None
  /\ Step4.weightLoss (step4 approxSqrt inp) = None
  /\ ~ (forall (i : Inputs) (w : number),
          Risk.highRisk (risk approxSqrt i) = true -> nWeight i = Some w ->
          Step4.weightLoss (step4 approxSqrt i)
          = Some {| Step4.lowKg := (w * Fin 0.05)%js;
                    Step4.highKg := (w * Fin 0.10)%js |}).
Proof.
  intro inp.
  assert (Hr : Risk.highRisk (risk approxSqrt inp) = true)
    by (vm_compute; reflexivity).
  assert (Hw : nWeight inp = Some (Fin 80)) by (vm_compute; reflexivity).
  assert (Hl : Step4.weightLoss (step4 approxSqrt inp) = None)
    by (vm_compute; reflexivity).
  split; [ exact Hr | split; [ exact Hw | split; [ reflexivity | split ] ] ].
  - exact Hl.
  - intro H. specialize (H inp (Fin 80) Hr Hw).
    rewrite Hl in H. discriminate H.
Qed.

Lemma weightLoss_target_witness :
  let inp := normalize highRiskYoung noChoices in
  Risk.highRisk (risk approxSqrt inp) = true
  /\ nAge inp = Some (Fin 30)
  /\ Step4.weightLoss (step4 approxSqrt inp)
     = Some {| Step4.lowKg := Fin (80 * 0.05); Step4.highKg := Fin (80 * 0.10) |}.
Proof.
  intro inp. split; [ vm_compute; reflexivity | ].
  split; [ vm_compute; reflexivity | ].
  rewrite (weightLoss_target approxSqrt inp). vm_compute. reflexivity.
Defined.


Lemma zero_denominator_is_absent_witness :
  let inp := normalize flatGlucoseForm maleChoices in
  ng0 inp = Some (Fin 95) /\ ng30 inp = Some (Fin 95)
  /\ Indices.igi (indices approxSqrt inp) = None
  /\ (exists q : Q, Indices.homaBeta (indices approxSqrt inp) = Some (Fin q))
  /\ allIndicesFinite (indices approxSqrt inp) = true.
Proof.
  intro inp.
  assert (Hn : normalized inp = true) by (vm_compute; reflexivity).
  destruct (zero_denominator_is_absent approxSqrt inp Hn)
    as (Higi & _ & _ & _ & _ & Hb & Hfin & _).
  split; [ vm_compute; reflexivity | split; [ vm_compute; reflexivity | ] ].
  split; [ | split; [ | exact Hfin ] ].
  - apply (Higi 95 95); vm_compute; reflexivity.
  - apply (Hb 10 95); try (vm_compute; reflexivity).
    vm_compute. intro H. discriminate H.
Defined.

(** The first-phase Stumvoll index at I0 = 10, I30 = 60 mU/L and
    G30 = 150 mg/dL lies between 1011.9 and 1012. *)
Example stumvoll1_example :
  exists x : Q,
    stumvoll1 (normalize highRiskForm maleChoices) = Some (Fin x)
    /\ 1011.9 < x < 1012.
Proof.
  eexists. split; [ vm_compute; reflexivity | ].
  split; reflexivity.
Qed.

(** BMI 24 with MASLD: indicated at the threshold of 23 for Asian American,
    not indicated at the threshold of 25 otherwise. *)
Example ogtt_threshold_by_ethnicity :
  indicated (ogttIndication (normalize bmi24Form (masldChoices AsianAmerican)))
  = true
  /\ reasons (ogttIndication (normalize bmi24Form (masldChoices AsianAmerican)))
     = ["BMI ≥23 kg/m² plus risk factor(s): MASLD, High-risk ethnicity"]
  /\ indicated (ogttIndication (normalize bmi24Form (masldChoices White)))
     = false.
Proof. repeat split; vm_compute; reflexivity. Qed.

(** Saving and clearing the baseline; without one there is no comparison. *)
Example baseline_slot :
  comparison approxSqrt clearBaseline (normalize repeatForm maleChoices) = None
  /\ saveBaseline approxSqrt "t" (normalize highRiskForm maleChoices)
     = Some (snapshot approxSqrt "t" (normalize highRiskForm maleChoices))
  /\ option_map Comparison.removed
       (comparison approxSqrt
          (saveBaseline approxSqrt "t" (normalize fastingOnlyForm maleChoices))
          (normalize repeatForm maleChoices))
     = Some ["IFG present (FPG 100–125 mg/dL)"].
Proof. repeat split; vm_compute; reflexivity. Qed.

(** * Further properties of the code *)

(** ** Normalisation *)

(** Clamping the value [clampNum] returned gives that value again, so a
    value within the range passes unchanged. *)
Theorem clampNum_idempotent (v : raw) (lo hi : Q) (r : number) :
  lo <= hi ->
  clampNum v lo hi = Some r ->
  exists r', clampNum (Numeric r) lo hi = Some r' /\ (r' === r)%js = true.
Proof.
  intros Hr Hv.
  pose proof (clampNum_spec v lo hi Hr) as H.
  destruct (Number v) as [ | | | q]; try congruence.
  destruct H as (x & Hx & Hin & _). rewrite Hx in Hv. inversion Hv; subst r.
  pose proof (clampNum_spec (Numeric (Fin x)) lo hi Hr) as H'.
  cbn [Number] in H'. destruct H' as (x' & Hx' & _ & Hsame & _).
  exists (Fin x'). split; [ exact Hx' | ].
  apply eq_Fin, Hsame, Hin.
Qed.

Lemma clampNum_idempotent_witness :
  clampNum (Text "250") 10 100 = Some (Fin 100)
  /\ exists r', clampNum (Numeric (Fin 100)) 10 100 = Some r'
                /\ (r' === Fin 100)%js = true.
Proof.
  split; [ vm_compute; reflexivity | ].
  apply (clampNum_idempotent (Text "250") 10 100 (Fin 100)).
  - unfold Qle; simpl; lia.
  - vm_compute. reflexivity.
Defined.

(** ** The mean *)




(** ** Anthropometrics and indices on normalised inputs *)

Lemma normalized_ranges (inp : Inputs) :
  normalized inp = true ->
  inRange 10 100 (nAge inp) = true /\ inRange 20 300 (nWeight inp) = true
  /\ inRange 100 230 (nHeight inp) = true /\ inRange 40 200 (nWaist inp) = true
  /\ inRange 60 260 (nSBP inp) = true /\ inRange 30 160 (nDBP inp) = true
  /\ inRange 20 2000 (nTG inp) = true /\ inRange 5 200 (nHDL inp) = true
  /\ inRange 3.5 15 (nA1c inp) = true
  /\ inRange 40 600 (ng0 inp) = true /\ inRange 40 600 (ng30 inp) = true
  /\ inRange 40 600 (ng60 inp) = true /\ inRange 40 600 (ng90 inp) = true
  /\ inRange 40 600 (ng120 inp) = true
  /\ inRange 0 1000 (ni0 inp) = true /\ inRange 0 2000 (ni30 inp) = true
  /\ inRange 0 3000 (ni60 inp) = true /\ inRange 0 3000 (ni90 inp) = true
  /\ inRange 0 3000 (ni120 inp) = true.
Proof.
  unfold normalized. cbn [forallb]. rewrite !andb_true_iff. tauto.
Qed.

Lemma inRange_Fin (lo hi q : Q) :
  inRange lo hi (Some (Fin q)) = true <-> lo <= q <= hi.
Proof.
  simpl. rewrite andb_true_iff, !Qle_bool_iff. reflexivity.
Qed.





(* The BMI of the model on normalised inputs: the guard on a zero height
   never fires, and the quotient lies between 3.78 and 300. *)
Lemma bmi_value (inp : Inputs) (w h : Q) :
  normalized inp = true ->
  nWeight inp = Some (Fin w) -> nHeight inp = Some (Fin h) ->
  exists b : Q, bmi inp = Some (Fin b) /\ 3.78 < b <= 300.
Proof.
  intros Hn Ew Eh.
  destruct (normalized_ranges inp Hn) as (_ & Hw & Hh & _).
  rewrite Ew in Hw. rewrite Eh in Hh.
  apply inRange_Fin in Hw, Hh.
  assert (Hm : 1 <= h / 100 <= 2.3).
  { split.
    - apply Qle_shift_div_l; lra.
    - apply Qle_shift_div_r; lra. }
  assert (Hmm : 1 <= h / 100 * (h / 100) <= 5.29) by nra.
  exists (w / (h / 100 * (h / 100))). split.
  - unfold bmi. rewrite Ew, Eh. cbv zeta.
    change (Fin h / Fin 100)%js with (Fin (h / 100)).
    cbn [Num.falsy Num.mul].
    destruct (Qeq_bool (h / 100) 0) eqn:E.
    + apply Qeq_bool_iff in E. lra.
    + rewrite div_Fin; [ reflexivity | lra ].
  - split.
    + apply Qlt_shift_div_l; lra.
    + apply Qle_shift_div_r; lra.
Qed.

(** On normalised inputs the BMI is absent exactly when the weight or
    the height is: the guard on a zero height never fires, as the height
    is at least 100 cm.  When both are present it is a finite number
    above 3.78 and at most 300. *)
Theorem bmi_normalized (inp : Inputs) :
  normalized inp = true ->
  (bmi inp = None <-> nWeight inp = None \/ nHeight inp = None)
  /\ (nWeight inp <> None -> nHeight inp <> None ->
      exists b : Q, bmi inp = Some (Fin b) /\ 3.78 < b <= 300).
Proof.
  intro Hn.
  destruct (normalized_ranges inp Hn) as (_ & Hw & Hh & _).
  split.
  - split.
    + intro Hb.
      destruct (inRange_cases _ _ _ Hw) as [Ew | (w & Ew & _)]; [ auto | ].
      destruct (inRange_cases _ _ _ Hh) as [Eh | (h & Eh & _)]; [ auto | ].
      destruct (bmi_value inp w h Hn Ew Eh) as (b & Hv & _). congruence.
    + unfold bmi. intros [-> | ->]; [ reflexivity | ].
      destruct (nWeight inp); reflexivity.
  - intros Nw Nh.
    destruct (inRange_cases _ _ _ Hw) as [Ew | (w & Ew & _)];
      [ contradiction | ].
    destruct (inRange_cases _ _ _ Hh) as [Eh | (h & Eh & _)];
      [ contradiction | ].
    apply (bmi_value inp w h Hn Ew Eh).
Qed.

Lemma bmi_normalized_witness :
  let inp := normalize systolicOnly noChoices in
  exists b : Q, bmi inp = Some (Fin b) /\ 3.78 < b <= 300.
Proof.
  intro inp.
  apply (bmi_normalized inp).
  - vm_compute. reflexivity.
  - vm_compute. discriminate.
  - vm_compute. discriminate.
Defined.



(** The two Stumvoll indices are absent exactly when I0, I30 or G30 is.
    Between two sets of normalised inputs they are finite and do not fall
    when the fasting and the 30-minute insulin do not fall and the
    30-minute glucose does not rise. *)
Theorem stumvoll_monotone (inp inp' : Inputs) :
  (stumvoll1 inp = None
   <-> ni0 inp = None \/ ni30 inp = None \/ ng30 inp = None)
  /\ (stumvoll2 inp = None
      <-> ni0 inp = None \/ ni30 inp = None \/ ng30 inp = None)
  /\ (forall i0 i30 g30 i0' i30' g30' : Q,
         normalized inp = true -> normalized inp' = true ->
         ni0 inp = Some (Fin i0) -> ni30 inp = Some (Fin i30) ->
         ng30 inp = Some (Fin g30) ->
         ni0 inp' = Some (Fin i0') -> ni30 inp' = Some (Fin i30') ->
         ng30 inp' = Some (Fin g30') ->
         i0 <= i0' -> i30 <= i30' -> g30' <= g30 ->
         exists s1 s1' s2 s2' : Q,
           stumvoll1 inp = Some (Fin s1) /\ stumvoll1 inp' = Some (Fin s1')
           /\ stumvoll2 inp = Some (Fin s2)
           /\ stumvoll2 inp' = Some (Fin s2')
           /\ s1 <= s1' /\ s2 <= s2').
Proof.
  unfold stumvoll1, stumvoll2, i30_pmol, i0_pmol, g30_mmol.
  split; [ | split ].
  - destruct (ni0 inp), (ni30 inp), (ng30 inp); cbn [option_map];
      split; try discriminate; auto;
      intros [H | [H | H]]; discriminate H.
  - destruct (ni0 inp), (ni30 inp), (ng30 inp); cbn [option_map];
      split; try discriminate; auto;
      intros [H | [H | H]]; discriminate H.
  - intros i0 i30 g30 i0' i30' g30' _ _ -> -> -> -> -> -> H0 H30 Hg.
    cbn [option_map].
    assert (H18 : ~ 18 == 0) by (intro H; discriminate H).
    rewrite !(div_Fin _ 18 H18). cbn [Num.mul Num.add Num.sub Num.neg].
    do 4 eexists.
    split; [ reflexivity | ].
    split; [ reflexivity | ].
    split; [ reflexivity | ].
    split; [ reflexivity | ].
    assert (Hd : g30' / 18 <= g30 / 18).
    { unfold Qdiv. apply Qmult_le_compat_r; [ exact Hg | discriminate ]. }
    split; lra.
Qed.

Lemma stumvoll_monotone_witness :
  let high := normalize highRiskForm maleChoices in
  let flat := normalize flatGlucoseForm maleChoices in
  exists s1 s1' s2 s2' : Q,
    stumvoll1 high = Some (Fin s1) /\ stumvoll1 flat = Some (Fin s1')
    /\ stumvoll2 high = Some (Fin s2) /\ stumvoll2 flat = Some (Fin s2')
    /\ s1 <= s1' /\ s2 <= s2'.
Proof.
  intros high flat.
  apply (proj2 (proj2 (stumvoll_monotone high flat)) 10 60 150 10 60 95);
    try (vm_compute; reflexivity);
    vm_compute; intro H; discriminate H.
Defined.

Lemma approxSqrt_zero (q : Q) :
  q == 0 -> exists r : Q, approxSqrt (Fin q) = Fin r /\ r == 0.
Proof.
  destruct q as [n d]. unfold Qeq. simpl. intro H.
  assert (Hn : n = 0%Z) by lia. subst n.
  eexists. split; [ vm_compute; reflexivity | reflexivity ].
Qed.

(** With a square root that is zero at zero, the Matsuda index, and with it
    the disposition index, is absent when the fasting insulin is zero: the
    zero denominator is caught, not divided by. *)
Theorem matsuda_absent_at_zero_insulin
  (Math_sqrt : number -> number) (inp : Inputs) (g i : Q) :
  (forall q : Q, q == 0 -> exists r : Q, Math_sqrt (Fin q) = Fin r /\ r == 0) ->
  ng0 inp = Some (Fin g) -> ni0 inp = Some (Fin i) -> i == 0 ->
  matsuda Math_sqrt inp = None /\ di Math_sqrt inp = None.
Proof.
  intros Hsqrt Eg Ei Hi.
  assert (Hm : matsuda Math_sqrt inp = None).
  { unfold matsuda. rewrite Eg, Ei.
    pose proof (mean_finite [ng0 inp; ng30 inp; ng60 inp; ng90 inp; ng120 inp])
      as Hgm.
    pose proof (mean_finite [ni0 inp; ni30 inp; ni60 inp; ni90 inp; ni120 inp])
      as Him.
    fold (gMean inp) in Hgm. fold (iMean inp) in Him.
    destruct (gMean inp) as [[ | | | gm] | ]; try discriminate; trivial.
    destruct (iMean inp) as [[ | | | im] | ]; try discriminate; trivial.
    cbv zeta. unfold sqrt. cbn [Num.mul].
    assert (H0 : g * i * (gm * im) == 0) by (rewrite Hi; ring).
    destruct (Hsqrt _ H0) as (r & -> & Hr).
    cbn [Num.isFinite negb orb].
    apply eq_Fin in Hr. rewrite Hr. reflexivity. }
  split; [ exact Hm | ].
  unfold di. rewrite Hm. reflexivity.
Qed.

Lemma matsuda_absent_at_zero_insulin_witness :
  let inp := normalize initialFields noChoices in
  ni0 inp = Some (Fin 0)
  /\ matsuda approxSqrt inp = None /\ di approxSqrt inp = None.
Proof.
  intro inp. split; [ vm_compute; reflexivity | ].
  apply (matsuda_absent_at_zero_insulin approxSqrt inp 40 0 approxSqrt_zero);
    vm_compute; reflexivity.
Defined.

(** ** Step 1 *)

Lemma filter_nonempty {A : Type} (f : A -> bool) (l : list A) :
  (1 <=? List.length (filter f l))%nat = existsb f l.
Proof.
  induction l as [ | x l IH]; simpl; [ reflexivity | ].
  destruct (f x); simpl; [ reflexivity | exact IH ].
Qed.

Lemma indicated_triggers (inp : Inputs) :
  indicated (ogttIndication inp) = true
  <-> isIFG (ng0 inp) = true
      \/ defined_and (nA1c inp)
           (fun a => andb (a >= Fin 5.7)%js (a <= Fin 6.4)%js) = true
      \/ hxGDM (choices inp) = true
      \/ hxPancreatitis (choices inp) = true
      \/ (defined_and (bmi inp)
            (fun b => b >= Fin (inject_Z (bmiThreshold inp)))%js = true
          /\ exists rf, In rf (riskFactors inp) /\ ok rf = true).
Proof.
  rewrite <- existsb_exists, <- andb_true_iff, <- filter_nonempty.
  unfold ogttIndication, isIFG, defined_and. cbv zeta. cbn [indicated].
  destruct (ng0 inp) as [g | ];
    [ destruct (andb (g >= Fin 100)%js (g < Fin 126)%js) | ];
    (destruct (nA1c inp) as [a | ];
     [ destruct (andb (a >= Fin 5.7)%js (a <= Fin 6.4)%js) | ]);
    destruct (hxGDM (choices inp)), (hxPancreatitis (choices inp));
    match goal with
    | |- context [pushIf ?c _ _] => destruct c
    end;
    cbn; intuition discriminate.
Qed.

(** The OGTT is indicated exactly when one of the five triggers holds: a
    fasting glucose in the IFG band (the test [isIFG] of step 3), an HbA1c
    from 5.7 to 6.4, a history of gestational diabetes or of pancreatitis,
    or a BMI at the threshold of the ethnicity with at least one risk
    factor. *)
Theorem ogttIndication_iff (inp : Inputs) :
  indicated (ogttIndication inp) = true
  <-> isIFG (ng0 inp) = true
      \/ defined_and (nA1c inp)
           (fun a => andb (a >= Fin 5.7)%js (a <= Fin 6.4)%js) = true
      \/ hxGDM (choices inp) = true
      \/ hxPancreatitis (choices inp) = true
      \/ (defined_and (bmi inp)
            (fun b => b >= Fin (inject_Z (bmiThreshold inp)))%js = true
          /\ exists rf, In rf (riskFactors inp) /\ ok rf = true).
Proof. apply indicated_triggers. Qed.

Lemma ge_weaken (a : number) (x y : Q) :
  y <= x -> (a >= Fin x)%js = true -> (a >= Fin y)%js = true.
Proof.
  intros Hxy. destruct a as [ | | | q]; try (intro H; exact H).
  rewrite !ge_Fin. lra.
Qed.

(** A fasting glucose flagged IFG at step 3, or an HbA1c flagged 6.0-6.4
    there, is an indication for the OGTT at step 1. *)
Theorem step3_markers_indicate_ogtt
  (Math_sqrt : number -> number) (inp : Inputs) :
  Risk.IFG (risk Math_sqrt inp) = true
  \/ Risk.a1cHigh (risk Math_sqrt inp) = true ->
  indicated (ogttIndication inp) = true.
Proof.
  intro H. apply indicated_triggers.
  destruct H as [H | H]; [ left; exact H | right; left ].
  cbn [risk riskRules Risk.a1cHigh] in H.
  unfold defined_and in *. destruct (nA1c inp) as [a | ]; [ | discriminate ].
  apply andb_prop in H. destruct H as [H1 H2].
  apply andb_true_intro. split; [ | exact H2 ].
  apply (ge_weaken a 6.0 5.7); [ lra | exact H1 ].
Qed.

Lemma step3_markers_indicate_ogtt_witness :
  indicated (ogttIndication (normalize fastingOnlyForm maleChoices)) = true.
Proof.
  apply (step3_markers_indicate_ogtt approxSqrt).
  left. vm_compute. reflexivity.
Defined.

(** ** Step 2 against steps 1 and 3 *)

Lemma criteria_met_list (inp : Inputs) :
  map (fun c => (name c, met c)) (criteria (metabolicSyndrome inp))
  = [ ("Waist circumference", waistCriterion inp);
      ("Triglycerides", tgCriterion inp);
      ("HDL", hdlCriterion inp);
      ("Blood pressure", bpCriterion inp);
      ("Fasting glucose", fpgCriterion inp) ].
Proof.
  destruct inp as [? ? ? wa sb db t h ? g ? ? ? ? ? ? ? ? ? [s ? tx ? ? ? ? ?]].
  unfold metabolicSyndrome, waistCriterion, tgCriterion,
    hdlCriterion, bpCriterion, fpgCriterion.
  cbv zeta.
  cbn [criteria nWaist nSBP nDBP nTG nHDL ng0 choices sex onBPtx].
  destruct s, wa, t, h, tx, sb, db, g; reflexivity.
Qed.

Lemma metCount_countMet (inp : Inputs) :
  metCount (metabolicSyndrome inp)
  = countMet [ waistCriterion inp; tgCriterion inp; hdlCriterion inp;
               bpCriterion inp; fpgCriterion inp ].
Proof.
  pose proof (criteria_met_list inp) as H.
  apply (f_equal (map snd)) in H. rewrite map_map in H. cbn [map snd] in H.
  rewrite <- H. unfold metabolicSyndrome. cbv zeta. cbn [metCount].
  rewrite fold_count_met. reflexivity.
Qed.

Lemma criterionMet_pairs (nm : string) (ms : MetabolicSyndrome) :
  criterionMet nm ms
  = existsb (fun p => andb (String.eqb (fst p) nm) (snd p))
      (map (fun c => (name c, met c)) (criteria ms)).
Proof.
  unfold criterionMet. induction (criteria ms) as [ | c l IH]; simpl;
    [ reflexivity | rewrite IH; reflexivity ].
Qed.

(** The thresholds of step 2 agree with those of the other steps: when the
    blood-pressure criterion of step 2 is met, the hypertension risk factor
    of step 1 holds, and when the fasting glucose is in the IFG band the
    fasting-glucose criterion of step 2 is met. *)
Theorem step2_agrees_with_steps_1_and_3 (inp : Inputs) :
  (criterionMet "Blood pressure" (metabolicSyndrome inp) = true ->
   hypertensionFactor inp = true)
  /\ (isIFG (ng0 inp) = true ->
      criterionMet "Fasting glucose" (metabolicSyndrome inp) = true).
Proof.
  rewrite !criterionMet_pairs, criteria_met_list.
  cbn [existsb fst snd String.eqb Ascii.eqb Bool.eqb andb orb].
  rewrite !orb_false_r. split.
  - unfold bpCriterion, hypertensionFactor, riskFactors. cbn [ok].
    intro H. apply orb_true_iff in H. apply orb_true_iff.
    destruct H as [H | H]; [ right; exact H | left ].
    destruct (nSBP inp) as [s | ]; [ | discriminate ].
    destruct (nDBP inp) as [d | ]; [ | discriminate ].
    apply orb_true_iff in H. apply orb_true_iff.
    destruct H as [H | H]; [ left; exact H | right ].
    apply (ge_weaken d 85 80); [ lra | exact H ].
  - unfold isIFG, fpgCriterion. destruct (ng0 inp) as [g | ]; [ | discriminate ].
    intro H. apply andb_prop in H. apply H.
Qed.

Lemma step2_agrees_with_steps_1_and_3_witness :
  hypertensionFactor (normalize highRiskForm maleChoices) = true
  /\ criterionMet "Fasting glucose"
       (metabolicSyndrome (normalize highRiskForm maleChoices)) = true.
Proof.
  destruct (step2_agrees_with_steps_1_and_3 (normalize highRiskForm maleChoices))
    as [H1 H2].
  split; [ apply H1 | apply H2 ]; vm_compute; reflexivity.
Defined.

(** Ticking the treatment box meets the blood-pressure criterion and never
    lowers the count of met criteria, which is at most five; a syndrome
    that was present stays present. *)
Theorem treatment_never_lowers_metCount (inp : Inputs) :
  (metCount (metabolicSyndrome inp)
   <= metCount (metabolicSyndrome (setOnBPtx true inp)) <= 5)%nat
  /\ criterionMet "Blood pressure" (metabolicSyndrome (setOnBPtx true inp))
     = true
  /\ (present (metabolicSyndrome inp) = true ->
      present (metabolicSyndrome (setOnBPtx true inp)) = true).
Proof.
  assert (Hle : (metCount (metabolicSyndrome inp)
                 <= metCount (metabolicSyndrome (setOnBPtx true inp)) <= 5)%nat).
  { rewrite !metCount_countMet.
    change (waistCriterion (setOnBPtx true inp)) with (waistCriterion inp).
    change (tgCriterion (setOnBPtx true inp)) with (tgCriterion inp).
    change (hdlCriterion (setOnBPtx true inp)) with (hdlCriterion inp).
    change (fpgCriterion (setOnBPtx true inp)) with (fpgCriterion inp).
    change (bpCriterion (setOnBPtx true inp)) with true.
    destruct (waistCriterion inp), (tgCriterion inp), (hdlCriterion inp),
      (bpCriterion inp), (fpgCriterion inp); cbn; lia. }
  split; [ exact Hle | split ].
  - rewrite criterionMet_pairs, criteria_met_list. reflexivity.
  - change (present (metabolicSyndrome inp))
      with (3 <=? metCount (metabolicSyndrome inp))%nat.
    change (present (metabolicSyndrome (setOnBPtx true inp)))
      with (3 <=? metCount (metabolicSyndrome (setOnBPtx true inp)))%nat.
    rewrite !Nat.leb_le. lia.
Qed.

Lemma treatment_never_lowers_metCount_witness :
  metCount (metabolicSyndrome (normalize threeCriteriaForm maleChoices)) = 2%nat
  /\ metCount (metabolicSyndrome
                 (setOnBPtx true (normalize threeCriteriaForm maleChoices)))
     = 3%nat
  /\ criterionMet "Blood pressure"
       (metabolicSyndrome
          (setOnBPtx true (normalize threeCriteriaForm maleChoices))) = true.
Proof.
  split; [ vm_compute; reflexivity | split; [ vm_compute; reflexivity | ] ].
  apply (proj1 (proj2 (treatment_never_lowers_metCount
                         (normalize threeCriteriaForm maleChoices)))).
Defined.

(** ** Step 3: the shape of the flag list *)

Lemma riskRules_shape
  (IFG IGT oneHourHigh a1cHigh igiLow firstPhaseLow metS : bool) :
  let r := riskRules IFG IGT oneHourHigh a1cHigh igiLow firstPhaseLow metS in
  Risk.highRisk r
  = orb (andb IFG IGT)
        (andb (andb (orb IFG IGT) oneHourHigh)
              (orb metS (orb a1cHigh (orb igiLow firstPhaseLow))))
  /\ Risk.flags r
     = filter (fun f => isDanger (Flag.severity f)) (Risk.flags r)
       ++ filter (fun f => negb (isDanger (Flag.severity f))) (Risk.flags r)
  /\ (List.length (Risk.flags r) <=? 9)%nat = true
  /\ List.length
       (filter (fun f => negb (isDanger (Flag.severity f))) (Risk.flags r))
     = countMet [IFG; IGT; oneHourHigh; metS]
  /\ implb (truthy (Risk.exactRisk r)) (Risk.highRisk r) = true
  /\ existsb (fun o => match o, Risk.exactRisk r with
                       | Some a, Some b => String.eqb a b
                       | None, None => true
                       | _, _ => false
                       end) [None; Some "52.8%"; Some ">50%"; Some "37.8%"]
     = true
  /\ StringSet.from (map Flag.render (Risk.flags r))
     = map Flag.render (Risk.flags r).
Proof.
  destruct IFG, IGT, oneHourHigh, a1cHigh, igiLow, firstPhaseLow, metS;
    vm_compute; repeat split.
Qed.

Lemma riskRules_warn_flags
  (IFG IGT oneHourHigh a1cHigh igiLow firstPhaseLow metS : bool) :
  let r := riskRules IFG IGT oneHourHigh a1cHigh igiLow firstPhaseLow metS in
  filter (fun f => negb (isDanger (Flag.severity f))) (Risk.flags r)
  = flagIf IFG (warnFlag "IFG present (FPG 100–125 mg/dL)")
    ++ flagIf IGT (warnFlag "IGT present (2-hour PG 140–199 mg/dL)")
    ++ flagIf oneHourHigh (warnFlag "1-hour PG >155 mg/dL")
    ++ flagIf metS (warnFlag "Metabolic syndrome present (ATP III)").
Proof.
  destruct IFG, IGT, oneHourHigh, a1cHigh, igiLow, firstPhaseLow, metS;
    reflexivity.
Qed.

(** [highRisk] in closed form over the inputs: a fasting glucose of 100-125
    with a 2-hour glucose of 140-199, or one of the two with a 1-hour
    glucose above 155 and one of metabolic syndrome, HbA1c 6.0-6.4, an
    insulinogenic index of at most 0.82 or a first-phase secretion of at
    most 1007.  So there is no high risk without IFG or IGT: with a fasting
    glucose outside 100-125 and a 2-hour glucose outside 140-199, or both
    absent, a high 1-hour glucose, the metabolic syndrome, the HbA1c and
    the low indices never make it on their own. *)
Theorem highRisk_closed_form (Math_sqrt : number -> number) (inp : Inputs) :
  let r := risk Math_sqrt inp in
  let IFG := isIFG (ng0 inp) in
  let IGT := isIGT (ng120 inp) in
  let oneHourHigh :=
    match ng60 inp with Some g => (g > Fin 155)%js | None => false end in
  let a1cHigh :=
    match nA1c inp with
    | Some a => andb (a >= Fin 6.0)%js (a <= Fin 6.4)%js
    | None => false
    end in
  let igiLow :=
    match Indices.igi (indices Math_sqrt inp) with
    | Some x => (x <= Fin 0.82)%js
    | None => false
    end in
  let firstPhaseLow :=
    match Indices.stumvoll1 (indices Math_sqrt inp) with
    | Some x => (x <= Fin 1007)%js
    | None => false
    end in
  let metS := present (metabolicSyndrome inp) in
  Risk.highRisk r
  = orb (andb IFG IGT)
        (andb (andb (orb IFG IGT) oneHourHigh)
              (orb metS (orb a1cHigh (orb igiLow firstPhaseLow))))
  /\ (Risk.highRisk r = true -> IFG = true \/ IGT = true)
  /\ (forall g0 g120 : Q,
         ng0 inp = Some (Fin g0) -> ng120 inp = Some (Fin g120) ->
         g0 < 100 \/ 126 <= g0 -> g120 < 140 \/ 200 <= g120 ->
         Risk.highRisk r = false)
  /\ (ng0 inp = None -> ng120 inp = None -> Risk.highRisk r = false)
  /\ (forall g0 g120 : Q,
         ng0 inp = Some (Fin g0) -> ng120 inp = Some (Fin g120) ->
         100 <= g0 < 126 -> 140 <= g120 < 200 ->
         Risk.highRisk r = true)
  /\ (oneHourHigh = false -> Risk.highRisk r = andb IFG IGT).
Proof.
  intros r IFG IGT oneHourHigh a1cHigh igiLow firstPhaseLow metS.
  assert (H : Risk.highRisk r
              = orb (andb IFG IGT)
                  (andb (andb (orb IFG IGT) oneHourHigh)
                        (orb metS (orb a1cHigh (orb igiLow firstPhaseLow)))))
    by apply (riskRules_shape IFG IGT oneHourHigh a1cHigh igiLow
                firstPhaseLow metS).
  split; [ exact H | ].
  split; [ rewrite H; destruct IFG, IGT; simpl; auto | ].
  split.
  { intros g0 g120 E0 E120 H0 H120.
    assert (HIFG : IFG = false).
    { unfold IFG, isIFG. rewrite E0. apply andb_false_iff.
      destruct H0 as [H0 | H0].
      - left. apply not_true_iff_false. rewrite ge_Fin. lra.
      - right. apply lt_Fin_false, H0. }
    assert (HIGT : IGT = false).
    { unfold IGT, isIGT. rewrite E120. apply andb_false_iff.
      destruct H120 as [H120 | H120].
      - left. apply not_true_iff_false. rewrite ge_Fin. lra.
      - right. apply lt_Fin_false, H120. }
    rewrite H, HIFG, HIGT. reflexivity. }
  split.
  { intros E0 E120.
    assert (HIFG : IFG = false) by (unfold IFG; rewrite E0; reflexivity).
    assert (HIGT : IGT = false) by (unfold IGT; rewrite E120; reflexivity).
    rewrite H, HIFG, HIGT. reflexivity. }
  split.
  { intros g0 g120 E0 E120 [H0a H0b] [H120a H120b].
    assert (HIFG : IFG = true).
    { unfold IFG, isIFG. rewrite E0. apply andb_true_intro.
      split; [ apply ge_Fin | apply lt_Fin ]; assumption. }
    assert (HIGT : IGT = true).
    { unfold IGT, isIGT. rewrite E120. apply andb_true_intro.
      split; [ apply ge_Fin | apply lt_Fin ]; assumption. }
    rewrite H, HIFG, HIGT. reflexivity. }
  intro H1. rewrite H, H1.
  destruct IFG, IGT; reflexivity.
Qed.

Lemma highRisk_closed_form_witness :
  let high := normalize highRiskForm maleChoices in
  let fasting := normalize fastingOnlyForm maleChoices in
  let normal := normalize repeatForm maleChoices in
  Risk.highRisk (risk approxSqrt high) = true
  /\ (isIGT (ng120 fasting) = false
      /\ Risk.highRisk (risk approxSqrt fasting) = false)
  /\ Risk.highRisk (risk approxSqrt normal) = false.
Proof.
  intros high fasting normal.
  destruct (highRisk_closed_form approxSqrt high)
    as (_ & _ & _ & _ & Hboth & _).
  destruct (highRisk_closed_form approxSqrt fasting)
    as (_ & _ & _ & _ & _ & H1h).
  destruct (highRisk_closed_form approxSqrt normal)
    as (_ & _ & Hnone & _).
  split; [ | split; [ split | ] ].
  - apply (Hboth 110 150); vm_compute;
      try reflexivity; split; try reflexivity; intro H; discriminate H.
  - vm_compute. reflexivity.
  - rewrite H1h; vm_compute; reflexivity.
  - apply (Hnone 95 120); try (vm_compute; reflexivity);
      left; vm_compute; reflexivity.
Defined.

(** The flag list has at most nine entries and its danger flags come before
    its warn flags.  The warn flags are, in this order, "IFG present" when
    the fasting glucose is 100-125, "IGT present" when the 2-hour glucose
    is 140-199, "1-hour PG >155" when the 1-hour glucose is above 155 and
    "Metabolic syndrome present" when the syndrome is: one for each marker
    that holds, none for one that does not. *)
Theorem flags_danger_first (Math_sqrt : number -> number) (inp : Inputs) :
  let r := risk Math_sqrt inp in
  let IFG := isIFG (ng0 inp) in
  let IGT := isIGT (ng120 inp) in
  let oneHourHigh :=
    match ng60 inp with Some g => (g > Fin 155)%js | None => false end in
  let metS := present (metabolicSyndrome inp) in
  let warns :=
    filter (fun f => negb (isDanger (Flag.severity f))) (Risk.flags r) in
  Risk.flags r
  = filter (fun f => isDanger (Flag.severity f)) (Risk.flags r) ++ warns
  /\ (List.length (Risk.flags r) <= 9)%nat
  /\ warns
     = flagIf IFG (warnFlag "IFG present (FPG 100–125 mg/dL)")
       ++ flagIf IGT (warnFlag "IGT present (2-hour PG 140–199 mg/dL)")
       ++ flagIf oneHourHigh (warnFlag "1-hour PG >155 mg/dL")
       ++ flagIf metS (warnFlag "Metabolic syndrome present (ATP III)")
  /\ List.length warns = countMet [IFG; IGT; oneHourHigh; metS]
  /\ (forall g0 : Q,
         ng0 inp = Some (Fin g0) -> 100 <= g0 < 126 ->
         In (warnFlag "IFG present (FPG 100–125 mg/dL)") (Risk.flags r))
  /\ (forall g120 : Q,
         ng120 inp = Some (Fin g120) -> 140 <= g120 < 200 ->
         In (warnFlag "IGT present (2-hour PG 140–199 mg/dL)")
            (Risk.flags r))
  /\ (forall g60 : Q,
         ng60 inp = Some (Fin g60) -> 155 < g60 ->
         In (warnFlag "1-hour PG >155 mg/dL") (Risk.flags r)).
Proof.
  intros r IFG IGT oneHourHigh metS warns.
  pose proof (riskRules_warn_flags IFG IGT oneHourHigh
                (Risk.a1cHigh r) (Risk.igiLow r) (Risk.firstPhaseLow r) metS)
    as Hw.
  change (riskRules _ _ _ _ _ _ _) with r in Hw. cbv zeta in Hw.
  fold warns in Hw.
  destruct (riskRules_shape IFG IGT oneHourHigh
              (Risk.a1cHigh r) (Risk.igiLow r) (Risk.firstPhaseLow r) metS)
    as (_ & Hsplit & Hlen & Hcount & _).
  change (riskRules _ _ _ _ _ _ _) with r in Hsplit, Hlen, Hcount.
  assert (Hin : forall f, In f warns -> In f (Risk.flags r)).
  { intros f Hf. unfold warns in Hf. apply filter_In in Hf. apply Hf. }
  split; [ exact Hsplit | ].
  split; [ apply Nat.leb_le, Hlen | ].
  split; [ exact Hw | ].
  split; [ exact Hcount | ].
  split; [ | split ].
  - intros g0 E0 [Ha Hb]. apply Hin. rewrite Hw.
    assert (HIFG : IFG = true).
    { unfold IFG, isIFG. rewrite E0. apply andb_true_intro.
      split; [ apply ge_Fin | apply lt_Fin ]; assumption. }
    rewrite HIFG. left. reflexivity.
  - intros g120 E120 [Ha Hb]. apply Hin. rewrite Hw.
    assert (HIGT : IGT = true).
    { unfold IGT, isIGT. rewrite E120. apply andb_true_intro.
      split; [ apply ge_Fin | apply lt_Fin ]; assumption. }
    rewrite HIGT. apply in_or_app. right. left. reflexivity.
  - intros g60 E60 H60. apply Hin. rewrite Hw.
    assert (H1h : oneHourHigh = true).
    { unfold oneHourHigh. rewrite E60. apply gt_Fin, H60. }
    rewrite H1h. apply in_or_app. right. apply in_or_app. right.
    left. reflexivity.
Qed.

Lemma flags_danger_first_witness :
  let fasting := normalize fastingOnlyForm maleChoices in
  Risk.flags (risk approxSqrt fasting)
  = [warnFlag "IFG present (FPG 100–125 mg/dL)"]
  /\ In (warnFlag "IFG present (FPG 100–125 mg/dL)")
        (Risk.flags (risk approxSqrt fasting)).
Proof.
  intro fasting. split; [ vm_compute; reflexivity | ].
  destruct (flags_danger_first approxSqrt fasting)
    as (_ & _ & _ & _ & Hifg & _).
  apply (Hifg 110); [ vm_compute; reflexivity | ].
  split; vm_compute; [ intro H; discriminate H | reflexivity ].
Defined.

(** An exact risk is reported only at high risk, and it is one of the three
    figures of the rule table. *)
Theorem exactRisk_only_at_high_risk
  (Math_sqrt : number -> number) (inp : Inputs) (x : string) :
  Risk.exactRisk (risk Math_sqrt inp) = Some x ->
  Risk.highRisk (risk Math_sqrt inp) = true
  /\ (x = "52.8%" \/ x = ">50%" \/ x = "37.8%").
Proof.
  intro Hx.
  destruct (riskRules_shape (isIFG (ng0 inp)) (isIGT (ng120 inp))
              (Risk.oneHourHigh (risk Math_sqrt inp))
              (Risk.a1cHigh (risk Math_sqrt inp))
              (Risk.igiLow (risk Math_sqrt inp))
              (Risk.firstPhaseLow (risk Math_sqrt inp))
              (present (metabolicSyndrome inp)))
    as (_ & _ & _ & _ & Himp & Hin & _).
  change (riskRules _ _ _ _ _ _ _) with (risk Math_sqrt inp) in Himp, Hin.
  rewrite Hx in Himp, Hin.
  cbn [existsb orb] in Hin. rewrite orb_false_r in Hin.
  assert (Hcases : x = "52.8%" \/ x = ">50%" \/ x = "37.8%").
  { apply orb_true_iff in Hin. destruct Hin as [Hin | Hin];
      [ left; symmetry; apply String.eqb_eq, Hin | right ].
    apply orb_true_iff in Hin. destruct Hin as [Hin | Hin];
      [ left | right ]; symmetry; apply String.eqb_eq, Hin. }
  split; [ | exact Hcases ].
  destruct Hcases as [-> | [-> | ->]]; exact Himp.
Qed.

Lemma exactRisk_only_at_high_risk_witness :
  Risk.highRisk (risk approxSqrt (normalize highRiskForm maleChoices)) = true
  /\ ("52.8%" = "52.8%" \/ "52.8%" = ">50%" \/ "52.8%" = "37.8%").
Proof.
  apply (exactRisk_only_at_high_risk approxSqrt
           (normalize highRiskForm maleChoices) "52.8%").
  vm_compute. reflexivity.
Defined.

(** ** Sets of flag labels *)

Lemma has_In (s : list string) (x : string) :
  StringSet.has s x = true <-> In x s.
Proof.
  unfold StringSet.has. rewrite existsb_exists. split.
  - intros (y & Hin & He). apply String.eqb_eq in He. subst y. exact Hin.
  - intro Hin. exists x. split; [ exact Hin | apply String.eqb_refl ].
Qed.

Lemma fold_add_spec (l acc : list string) :
  NoDup acc ->
  NoDup (fold_left StringSet.add l acc)
  /\ forall x, In x (fold_left StringSet.add l acc) <-> In x acc \/ In x l.
Proof.
  revert acc. induction l as [ | y l IH]; intros acc Hnd; simpl.
  - split; [ exact Hnd | ]. intro x. tauto.
  - assert (Hnd' : NoDup (StringSet.add acc y)
                   /\ forall x, In x (StringSet.add acc y) <-> In x acc \/ x = y).
    { unfold StringSet.add. destruct (StringSet.has acc y) eqn:E.
      - apply has_In in E. split; [ exact Hnd | ].
        intro x. split; [ tauto | ]. intros [H | ->]; assumption.
      - assert (Hn : ~ In y acc).
        { intro Hin. apply has_In in Hin. congruence. }
        split.
        + apply NoDup_app; [ exact Hnd | repeat constructor; simpl; tauto | ].
          intros z Hz [<- | []]. contradiction.
        + intro x. rewrite in_app_iff. simpl. intuition congruence. }
    destruct Hnd' as [Hnd' Hin'].
    destruct (IH _ Hnd') as [H1 H2]. split; [ exact H1 | ].
    intro x. rewrite H2, Hin'. intuition congruence.
Qed.

Lemma from_spec (l : list string) :
  NoDup (StringSet.from l) /\ forall x, In x (StringSet.from l) <-> In x l.
Proof.
  destruct (fold_add_spec l [] (NoDup_nil _)) as [H1 H2].
  split; [ exact H1 | ]. intro x. unfold StringSet.from. rewrite H2.
  simpl. tauto.
Qed.

(** The rendered labels of the flags are pairwise distinct, so the set
    built from them keeps every flag, in the order of the list. *)
Theorem flag_labels_distinct (Math_sqrt : number -> number) (inp : Inputs) :
  let labels := map Flag.render (Risk.flags (risk Math_sqrt inp)) in
  NoDup labels /\ StringSet.from labels = labels.
Proof.
  intro labels.
  assert (H : StringSet.from labels = labels) by apply riskRules_shape.
  split; [ | exact H ].
  rewrite <- H. apply from_spec.
Qed.

(** ** Step 4 *)

(** At high risk with a known age, the recommendation is the one for under
    40 below 40, the one for 40-49 from 40 to 49, and the one for 50 and
    over at every age above 49: an age between 49 and 50, such as 49.5, is
    given the recommendation for 50 and over. *)
Theorem step4_decision_bands
  (Math_sqrt : number -> number) (inp : Inputs) (a : Q) :
  Risk.highRisk (risk Math_sqrt inp) = true ->
  nAge inp = Some (Fin a) ->
  Step4.applies (step4 Math_sqrt inp) = true
  /\ (a < 40 ->
      Step4.decision (step4 Math_sqrt inp)
      = "Age <40 years: Not a candidate (high risk).")
  /\ (40 <= a <= 49 ->
      Step4.decision (step4 Math_sqrt inp)
      = "Age 40–49 years: Consider only if able to reverse high-risk prognostic markers with weight loss on repeat OGTT.")
  /\ (49 < a ->
      Step4.decision (step4 Math_sqrt inp)
      = "Age ≥50 years: Can be accepted after risk mitigation with 5–10% weight loss.").
Proof.
  intros Hr Ha. unfold step4. rewrite Hr, Ha. cbn [negb Step4.applies Step4.decision].
  split; [ reflexivity | ].
  destruct (Fin a < Fin 40)%js eqn:E1;
    [ apply lt_Fin in E1 | apply lt_Fin_false in E1 ];
    (destruct (Fin a >= Fin 40)%js eqn:E2;
     [ apply ge_Fin in E2
     | apply not_true_iff_false in E2; rewrite ge_Fin in E2 ]);
    (destruct (Fin a <= Fin 49)%js eqn:E3;
     [ apply le_Fin in E3
     | apply not_true_iff_false in E3; rewrite le_Fin in E3 ]);
    cbn [andb];
    repeat split; intros; try reflexivity; exfalso; lra.
Qed.

Lemma step4_decision_bands_witness :
  Step4.decision (step4 approxSqrt (normalize highRiskAge49Half noChoices))
  = "Age ≥50 years: Can be accepted after risk mitigation with 5–10% weight loss.".
Proof.
  apply (step4_decision_bands approxSqrt
           (normalize highRiskAge49Half noChoices) 49.5);
    try (vm_compute; reflexivity).
Defined.

(** On normalised inputs a reported weight-loss target has its upper end at
    twice its lower end, the lower end between 1 and 15 kg; it is reported
    only when step 4 applies and the age is known. *)
Theorem weightLoss_bounds
  (Math_sqrt : number -> number) (inp : Inputs) (wl : Step4.WeightLoss) :
  normalized inp = true ->
  Step4.weightLoss (step4 Math_sqrt inp) = Some wl ->
  Step4.applies (step4 Math_sqrt inp) = true
  /\ nAge inp <> None
  /\ exists lo hi : Q,
       Step4.lowKg wl = Fin lo /\ Step4.highKg wl = Fin hi
       /\ hi == 2 * lo /\ 1 <= lo <= 15.
Proof.
  intros Hn Hwl.
  destruct (normalized_ranges inp Hn) as (_ & Hw & _).
  unfold step4 in *.
  destruct (Risk.highRisk (risk Math_sqrt inp)); [ | discriminate ].
  cbn [negb] in *.
  destruct (nAge inp) as [a | ]; [ | discriminate ].
  cbn [Step4.weightLoss Step4.applies] in *.
  split; [ reflexivity | split; [ discriminate | ] ].
  destruct (inRange_cases _ _ _ Hw) as [Ew | (w & Ew & Hr)];
    rewrite Ew in Hwl; [ discriminate | ].
  inversion Hwl; subst wl. cbn [Step4.lowKg Step4.highKg Num.mul].
  exists (w * 0.05), (w * 0.10). repeat split; try lra.
Qed.

Lemma weightLoss_bounds_witness :
  exists lo hi : Q,
    Fin (80 * 0.05) = Fin lo /\ Fin (80 * 0.10) = Fin hi
    /\ hi == 2 * lo /\ 1 <= lo <= 15.
Proof.
  apply (weightLoss_bounds approxSqrt (normalize highRiskYoung noChoices)
           {| Step4.lowKg := Fin (80 * 0.05); Step4.highKg := Fin (80 * 0.10) |});
    vm_compute; reflexivity.
Defined.

(** ** The comparison with the baseline *)

Lemma filter_has_self (s : list string) :
  filter (fun x => negb (StringSet.has s x)) s = [].
Proof.
  assert (H : forall l, (forall x, In x l -> In x s) ->
                        filter (fun x => negb (StringSet.has s x)) l = []).
  { induction l as [ | y l IH]; intro Hl; simpl; [ reflexivity | ].
    assert (Hy : StringSet.has s y = true)
      by (apply has_In, Hl; left; reflexivity).
    rewrite Hy. simpl. apply IH. intros x Hx. apply Hl. right. exact Hx. }
  apply H. auto.
Qed.

(** Comparing with a baseline saved from the same inputs reports no change:
    no flag added or removed, no risk transition, and a weight change of
    zero when the weight is known. *)
Theorem comparison_after_save
  (Math_sqrt : number -> number) (ts : string) (inp : Inputs) :
  normalized inp = true ->
  exists c,
    comparison Math_sqrt (saveBaseline Math_sqrt ts inp) inp = Some c
    /\ Comparison.added c = [] /\ Comparison.removed c = []
    /\ Comparison.reversedHighRisk c = false
    /\ Comparison.newHighRisk c = false
    /\ (nWeight inp = None -> Comparison.wlPct c = None)
    /\ (nWeight inp <> None ->
        exists q : Q, Comparison.wlPct c = Some (Fin q) /\ q == 0).
Proof.
  intro Hn. destruct (normalized_ranges inp Hn) as (_ & Hw & _).
  eexists. split; [ reflexivity | ].
  cbn [Comparison.added Comparison.removed Comparison.reversedHighRisk
       Comparison.newHighRisk Comparison.wlPct snapshot
       Baseline.flags Baseline.highRisk Baseline.weightKg].
  split; [ apply filter_has_self | ].
  split; [ apply filter_has_self | ].
  split; [ apply andb_negb_r | ].
  split; [ apply andb_negb_l | ].
  split.
  - intros ->. reflexivity.
  - intro Hsome.
    destruct (inRange_cases _ _ _ Hw) as [Ew | (w & Ew & Hr)];
      [ contradiction | ].
    rewrite Ew.
    assert (E : (Fin w > Fin 0)%js = true) by (apply gt_Fin; lra).
    assert (Hnz : ~ w == 0) by (intro Hz; lra).
    rewrite E, sub_Fin, (div_Fin _ _ Hnz). cbn [Num.mul].
    eexists. split; [ reflexivity | ]. field. exact Hnz.
Qed.

Lemma comparison_after_save_witness :
  exists c,
    comparison approxSqrt
      (saveBaseline approxSqrt "t" (normalize highRiskForm maleChoices))
      (normalize highRiskForm maleChoices) = Some c
    /\ Comparison.added c = [] /\ Comparison.removed c = [].
Proof.
  destruct (comparison_after_save approxSqrt "t"
              (normalize highRiskForm maleChoices))
    as (c & Hc & Ha & Hrm & _).
  - vm_compute. reflexivity.
  - exists c. auto.
Defined.

(** The added flags are the current labels that the baseline does not hold
    and the removed flags the labels of the baseline that are not current;
    neither list repeats a label, no label is in both, and the comparison
    never reports both a reversal and a new high risk. *)
Theorem comparison_flag_changes
  (Math_sqrt : number -> number) (b : Baseline.t) (inp : Inputs) :
  exists c,
    comparison Math_sqrt (Some b) inp = Some c
    /\ (forall x, In x (Comparison.added c)
                  <-> In x (map Flag.render (Risk.flags (risk Math_sqrt inp)))
                      /\ ~ In x (Baseline.flags b))
    /\ (forall x, In x (Comparison.removed c)
                  <-> In x (Baseline.flags b)
                      /\ ~ In x (map Flag.render
                                   (Risk.flags (risk Math_sqrt inp))))
    /\ NoDup (Comparison.added c) /\ NoDup (Comparison.removed c)
    /\ (forall x, In x (Comparison.added c) -> ~ In x (Comparison.removed c))
    /\ andb (Comparison.reversedHighRisk c) (Comparison.newHighRisk c) = false.
Proof.
  eexists. split; [ reflexivity | ].
  cbn [Comparison.added Comparison.removed Comparison.reversedHighRisk
       Comparison.newHighRisk].
  set (now := map Flag.render (Risk.flags (risk Math_sqrt inp))).
  destruct (from_spec now) as [Hnd1 Hin1].
  destruct (from_spec (Baseline.flags b)) as [Hnd2 Hin2].
  assert (Hadd : forall x,
             In x (filter (fun x => negb (StringSet.has
                                            (StringSet.from (Baseline.flags b)) x))
                     (StringSet.from now))
             <-> In x now /\ ~ In x (Baseline.flags b)).
  { intro x. rewrite filter_In, Hin1, negb_true_iff, <- not_true_iff_false,
      has_In, Hin2. reflexivity. }
  assert (Hrem : forall x,
             In x (filter (fun x => negb (StringSet.has (StringSet.from now) x))
                     (StringSet.from (Baseline.flags b)))
             <-> In x (Baseline.flags b) /\ ~ In x now).
  { intro x. rewrite filter_In, Hin2, negb_true_iff, <- not_true_iff_false,
      has_In, Hin1. reflexivity. }
  split; [ exact Hadd | split; [ exact Hrem | ] ].
  split; [ apply NoDup_filter, Hnd1 | ].
  split; [ apply NoDup_filter, Hnd2 | ].
  split.
  - intros x Ha Hr. apply Hadd in Ha. apply Hrem in Hr. tauto.
  - destruct (Baseline.highRisk b), (Risk.highRisk (risk Math_sqrt inp));
      reflexivity.
Qed.

(** ** PDF export *)

Lemma replaceAll_app (pat : N) (rep : string) (a b : list N) :
  replaceAll pat rep (a ++ b) = replaceAll pat rep a ++ replaceAll pat rep b.
Proof. unfold replaceAll. apply flat_map_app. Qed.

Lemma sanitizeForPDF_app (a b : list N) :
  sanitizeForPDF (a ++ b) = sanitizeForPDF a ++ sanitizeForPDF b.
Proof.
  unfold sanitizeForPDF. cbv zeta.
  rewrite !replaceAll_app. apply filter_app.
Qed.

Lemma replaceAll_other (pat : N) (rep : string) (c : N) :
  N.eqb c pat = false -> replaceAll pat rep [c] = [c].
Proof. intro H. unfold replaceAll. simpl. rewrite H. reflexivity. Qed.

Lemma sanitizeForPDF_single (c : N) : sanitizeForPDF [c] = sanitizeChar c.
Proof.
  unfold sanitizeChar.
  repeat match goal with
         | |- context [if N.eqb c ?p then _ else _] =>
             let E := fresh "E" in
             destruct (N.eqb c p) eqn:E;
             [ apply N.eqb_eq in E; subst c; vm_compute; reflexivity | ]
         end.
  unfold sanitizeForPDF. cbv zeta.
  rewrite !replaceAll_other by assumption. reflexivity.
Qed.

Lemma sanitizeChar_ascii (c : N) :
  Forall (fun d => (d <= 0x7F)%N) (sanitizeChar c).
Proof.
  unfold sanitizeChar.
  repeat match goal with
         | |- context [if N.eqb c ?p then _ else _] =>
             destruct (N.eqb c p);
             [ vm_compute; repeat constructor; discriminate | ]
         end.
  destruct (N.leb c 0x7F) eqn:E; [ | constructor ].
  apply N.leb_le in E. repeat constructor. exact E.
Qed.

Lemma sanitizeChar_keeps_ascii (c : N) :
  (c <= 0x7F)%N -> sanitizeChar c = [c].
Proof.
  intro H. unfold sanitizeChar.
  repeat match goal with
         | |- context [if N.eqb c ?p then _ else _] =>
             let E := fresh "E" in
             destruct (N.eqb c p) eqn:E;
             [ apply N.eqb_eq in E; subst c; vm_compute in H;
               exfalso; apply H; reflexivity | ]
         end.
  apply N.leb_le in H. rewrite H. reflexivity.
Qed.

Lemma sanitizeForPDF_flat (text : list N) :
  sanitizeForPDF text = flat_map sanitizeChar text.
Proof.
  induction text as [ | c text IH]; [ reflexivity | ].
  change (c :: text) with ([c] ++ text).
  rewrite sanitizeForPDF_app, sanitizeForPDF_single, IH. reflexivity.
Qed.

(** The clean-up works code unit by code unit, by the table of
    [sanitizeChar]; the second replacements of the two dashes and of the
    superscript 2 find nothing left to replace. *)
Theorem sanitizeForPDF_by_code_unit (text : list N) :
  sanitizeForPDF text = flat_map sanitizeChar text
  /\ sanitizeForPDF text
     = filter (fun c => N.leb c 0x7F)
         (replaceAll 0x2190 "<-" (replaceAll 0x2192 "->"
         (replaceAll 0xB1 "+/-" (replaceAll 0xB0 " degrees"
         (replaceAll 0x3BC "u" (replaceAll 0x3B2 "beta"
         (replaceAll 0xB7 "." (replaceAll 0xD7 "x"
         (replaceAll 0x2265 ">=" (replaceAll 0x2264 "<="
         (replaceAll 0xB2 "2" (replaceAll 0x2013 "-"
         (replaceAll 0x2014 "-" text))))))))))))).
Proof.
  split; [ apply sanitizeForPDF_flat | ].
  rewrite sanitizeForPDF_flat.
  induction text as [ | c text IH]; [ reflexivity | ].
  change (c :: text) with ([c] ++ text).
  rewrite !replaceAll_app, filter_app, <- IH.
  cbn [flat_map app]. f_equal.
  rewrite <- sanitizeForPDF_single. unfold sanitizeForPDF. cbv zeta.
  repeat match goal with
         | |- context [replaceAll ?p ?r [c]] =>
             let E := fresh "E" in
             destruct (N.eqb c p) eqn:E;
             [ apply N.eqb_eq in E; subst c; vm_compute; reflexivity
             | rewrite !(replaceAll_other p r c E) ]
         end.
  rewrite !replaceAll_other by assumption. reflexivity.
Qed.

(** The cleaned text holds ASCII only; a text that is ASCII already is
    returned as it is, so cleaning twice is cleaning once. *)
Theorem sanitizeForPDF_ascii (text : list N) :
  Forall (fun d => (d <= 0x7F)%N) (sanitizeForPDF text)
  /\ (Forall (fun d => (d <= 0x7F)%N) text -> sanitizeForPDF text = text)
  /\ sanitizeForPDF (sanitizeForPDF text) = sanitizeForPDF text.
Proof.
  assert (Hascii : forall t, Forall (fun d => (d <= 0x7F)%N) (sanitizeForPDF t)).
  { intro t. rewrite sanitizeForPDF_flat.
    induction t as [ | c t IH]; simpl; [ constructor | ].
    apply Forall_app. split; [ apply sanitizeChar_ascii | exact IH ]. }
  assert (Hkeep : forall t, Forall (fun d => (d <= 0x7F)%N) t ->
                            sanitizeForPDF t = t).
  { intros t Ht. rewrite sanitizeForPDF_flat.
    induction Ht as [ | c t Hc _ IH]; simpl; [ reflexivity | ].
    rewrite (sanitizeChar_keeps_ascii c Hc), IH. reflexivity. }
  split; [ apply Hascii | split; [ apply Hkeep | ] ].
  apply Hkeep, Hascii.
Qed.

Lemma sanitizeForPDF_ascii_witness :
  sanitizeForPDF (codeUnits "BMI: 27.7 kg/m2") = codeUnits "BMI: 27.7 kg/m2"
  /\ sanitizeForPDF [0x2265; 0x32; 0x35; 0x20; 0x6B; 0x67; 0x2F; 0x6D; 0xB2;
                     0x20; 0x2014; 0x20; 0x3B2; 0x20; 0xD83D; 0xDE00]%N
     = codeUnits ">=25 kg/m2 - beta ".
Proof.
  split; [ | vm_compute; reflexivity ].
  apply (proj1 (proj2 (sanitizeForPDF_ascii (codeUnits "BMI: 27.7 kg/m2")))).
  vm_compute. repeat constructor; discriminate.
Defined.

(** The layout draws every line once, in order, whatever the height of the
    page. *)
Theorem layout_draws_every_line (pageH : number) (lines : list (list N)) :
  drawnLines (layoutContent pageH lines) = lines.
Proof.
  unfold layoutContent. generalize (margin + Fin 70)%js.
  induction lines as [ | l lines IH]; intro y; simpl; [ reflexivity | ].
  destruct (y + lineH > pageH - margin - Fin 30)%js; simpl;
    rewrite IH; reflexivity.
Qed.

Lemma layoutFrom_in_band (h : Q) (lines : list (list N)) :
  144 <= h ->
  forall q : Q, 50 <= q ->
  Forall (fun y => exists p : Q, y = Fin p /\ 50 <= p /\ p + 14 <= h - 80)
    (drawnAt (layoutFrom (Fin h) lines (Fin q))).
Proof.
  intro Hh. induction lines as [ | l lines IH]; intros q Hq;
    [ constructor | ].
  cbn [layoutFrom].
  change (Fin q + lineH)%js with (Fin (q + 14)).
  change (Fin h - margin - Fin 30)%js with (Fin (h - 50 - 30)).
  destruct (Fin (q + 14) > Fin (h - 50 - 30))%js eqn:E;
    unfold drawnAt; cbn [flat_map app]; fold (drawnAt).
  - constructor.
    + exists 50. split; [ reflexivity | split; lra ].
    + change (margin + lineH)%js with (Fin (50 + 14)). apply IH. lra.
  - apply lt_Fin_false in E. constructor.
    + exists q. split; [ reflexivity | split; lra ].
    + apply IH. lra.
Qed.

(** On a page at least 144 pt high, every line is drawn between the top
    margin and the footer band: at a height [y] with [50 <= y] and
    [y + 14 <= pageH - 80]. *)
Theorem layout_within_band (h : Q) (lines : list (list N)) :
  144 <= h ->
  Forall (fun y => exists p : Q, y = Fin p /\ 50 <= p /\ p + 14 <= h - 80)
    (drawnAt (layoutContent (Fin h) lines)).
Proof.
  intro Hh. unfold layoutContent.
  change (margin + Fin 70)%js with (Fin (50 + 70)).
  apply layoutFrom_in_band; [ exact Hh | lra ].
Qed.

Lemma layout_within_band_witness :
  drawnAt (layoutContent (Fin 792) threeLines)
  = [Fin (50 + 70); Fin (50 + 70 + 14); Fin (50 + 70 + 14 + 14)]
  /\ Forall (fun y => exists p : Q, y = Fin p /\ 50 <= p /\ p + 14 <= 792 - 80)
       (drawnAt (layoutContent (Fin 792) threeLines)).
Proof.
  split; [ reflexivity | ].
  apply (layout_within_band 792 threeLines). unfold Qle; simpl; lia.
Defined.

(** ** The printable summary *)

Lemma Built_start (x : string) :
  negb (String.eqb x "") = true -> Built 1 1 x ([] ++ [x]).
Proof.
  intro Hx. unfold Built. simpl. rewrite Hx. repeat split; lia.
Qed.

Lemma Built_push (n m : nat) (a x : string) (l : list string) :
  Built n m a l -> negb (String.eqb x "") = true ->
  Built (S n) (S m) a (l ++ [x]).
Proof.
  intros (Hh & Hl & Hf) Hx. unfold Built.
  rewrite length_app, forallb_app, Hf. simpl. rewrite Hx.
  repeat split; try lia. destruct l; [ discriminate | exact Hh ].
Qed.

Lemma Built_weaken (n m : nat) (a : string) (l : list string) :
  Built (S n) m a l -> Built n m a l.
Proof. intros (Hh & Hl & Hf). unfold Built. repeat split; trivial; lia. Qed.

Lemma Built_keep (n m : nat) (a : string) (l : list string) :
  Built n m a l -> Built n (S m) a l.
Proof. intros (Hh & Hl & Hf). unfold Built. repeat split; trivial; lia. Qed.

Lemma Built_pushIf (n m : nat) (a x : string) (c : bool) (l : list string) :
  Built n m a l -> negb (String.eqb x "") = true ->
  Built n (S m) a (pushIf c x l).
Proof.
  intros H Hx. unfold pushIf. destruct c.
  - apply Built_weaken, Built_push; assumption.
  - apply Built_keep, H.
Qed.

Lemma Built_match {B : Type} (n m : nat) (a : string) (o : option B)
  (g : B -> string) (l : list string) :
  Built n m a l -> (forall b, negb (String.eqb (g b) "") = true) ->
  Built n (S m) a (match o with Some b => l ++ [g b] | None => l end).
Proof.
  intros H Hg. destruct o as [b | ].
  - apply Built_weaken, Built_push; [ exact H | apply Hg ].
  - apply Built_keep, H.
Qed.

Lemma Built_match_pushIf {B : Type} (n m : nat) (a : string) (o : option B)
  (c : B -> bool) (g : B -> string) (l : list string) :
  Built n m a l -> (forall b, negb (String.eqb (g b) "") = true) ->
  Built n (S m) a (match o with Some b => pushIf (c b) (g b) l | None => l end).
Proof.
  intros H Hg. destruct o as [b | ].
  - apply Built_pushIf; [ exact H | apply Hg ].
  - apply Built_keep, H.
Qed.

Lemma Built_step4 {B : Type} (n m : nat) (a d : string) (c : bool)
  (o : option B) (g : B -> string) (l : list string) :
  Built n m a l -> negb (String.eqb d "") = true ->
  (forall b, negb (String.eqb (g b) "") = true) ->
  Built n (S (S m)) a
    (if c then match o with
               | Some b => (l ++ [d]) ++ [g b]
               | None => l ++ [d]
               end
     else l).
Proof.
  intros H Hd Hg. destruct c.
  - apply Built_match; [ apply Built_weaken, Built_push; assumption | exact Hg ].
  - apply Built_keep, Built_keep, H.
Qed.

Section ExistsInPushes.

Variable f : string -> bool.

Lemma existsb_push_no (b : bool) (x : string) (l : list string) :
  existsb f l = b -> f x = false -> existsb f (l ++ [x]) = b.
Proof.
  intros Hl Hx. rewrite existsb_app, Hl. simpl. rewrite Hx, !orb_false_r.
  reflexivity.
Qed.

Lemma existsb_push_yes (b : bool) (x : string) (l : list string) :
  existsb f l = false -> f x = b -> existsb f (l ++ [x]) = b.
Proof.
  intros Hl Hx. rewrite existsb_app, Hl. simpl. rewrite Hx, orb_false_r.
  reflexivity.
Qed.

Lemma existsb_pushIf_no (b c : bool) (x : string) (l : list string) :
  existsb f l = b -> f x = false -> existsb f (pushIf c x l) = b.
Proof.
  intros Hl Hx. unfold pushIf. destruct c; [ | exact Hl ].
  apply existsb_push_no; assumption.
Qed.

Lemma existsb_match_no {B : Type} (b : bool) (o : option B)
  (g : B -> string) (l : list string) :
  existsb f l = b -> (forall y, f (g y) = false) ->
  existsb f (match o with Some y => l ++ [g y] | None => l end) = b.
Proof.
  intros Hl Hg. destruct o as [y | ]; [ | exact Hl ].
  apply existsb_push_no; [ exact Hl | apply Hg ].
Qed.

Lemma existsb_match_pushIf_no {B : Type} (b : bool) (o : option B)
  (c : B -> bool) (g : B -> string) (l : list string) :
  existsb f l = b -> (forall y, f (g y) = false) ->
  existsb f (match o with Some y => pushIf (c y) (g y) l | None => l end) = b.
Proof.
  intros Hl Hg. destruct o as [y | ]; [ | exact Hl ].
  apply existsb_pushIf_no; [ exact Hl | apply Hg ].
Qed.

Lemma existsb_match_pushIf_yes {B : Type} (o : option B)
  (c : B -> bool) (g : B -> string) (l : list string) :
  existsb f l = false -> (forall y, f (g y) = true) ->
  existsb f (match o with Some y => pushIf (c y) (g y) l | None => l end)
  = match o with Some y => c y | None => false end.
Proof.
  intros Hl Hg. destruct o as [y | ]; [ | exact Hl ].
  unfold pushIf. destruct (c y); [ | exact Hl ].
  apply existsb_push_yes; [ exact Hl | apply Hg ].
Qed.

Lemma existsb_step4_no {B : Type} (b c : bool) (d : string) (o : option B)
  (g : B -> string) (l : list string) :
  existsb f l = b -> f d = false -> (forall y, f (g y) = false) ->
  existsb f (if c then match o with
                       | Some y => (l ++ [d]) ++ [g y]
                       | None => l ++ [d]
                       end
             else l) = b.
Proof.
  intros Hl Hd Hg. destruct c; [ | exact Hl ].
  apply existsb_match_no; [ | exact Hg ].
  apply existsb_push_no; assumption.
Qed.

Lemma existsb_step4_decision {B : Type} (c : bool) (d : string) (o : option B)
  (g : B -> string) (l : list string) :
  existsb f l = false -> f d = true -> (forall y, f (g y) = false) ->
  existsb f (if c then match o with
                       | Some y => (l ++ [d]) ++ [g y]
                       | None => l ++ [d]
                       end
             else l) = c.
Proof.
  intros Hl Hd Hg. destruct c; [ | exact Hl ].
  apply existsb_match_no; [ | exact Hg ].
  apply existsb_push_yes; assumption.
Qed.

Lemma existsb_step4_weight {B : Type} (c : bool) (d : string) (o : option B)
  (g : B -> string) (l : list string) :
  existsb f l = false -> f d = false -> (forall y, f (g y) = true) ->
  existsb f (if c then match o with
                       | Some y => (l ++ [d]) ++ [g y]
                       | None => l ++ [d]
                       end
             else l) = andb c (isSome o).
Proof.
  intros Hl Hd Hg. destruct c; [ | exact Hl ].
  destruct o as [y | ]; simpl.
  - apply existsb_push_yes; [ | apply Hg ].
    apply existsb_push_no; assumption.
  - apply existsb_push_no; assumption.
Qed.

End ExistsInPushes.

Lemma prefix_append (p s : string) : String.prefix p (p ++ s) = true.
Proof.
  induction p as [ | a p IH]; simpl; [ destruct s; reflexivity | ].
  destruct (ascii_dec a a) as [_ | Hn]; [ exact IH | contradiction ].
Qed.

Ltac skip_lines :=
  repeat first
    [ apply existsb_push_no; [ | reflexivity ]
    | apply existsb_pushIf_no; [ | reflexivity ]
    | apply existsb_match_no; [ | intro; reflexivity ]
    | apply existsb_match_pushIf_no; [ | intro; reflexivity ]
    | apply existsb_step4_no; [ | reflexivity | intro; reflexivity ] ].

Lemma step4_applies (Math_sqrt : number -> number) (inp : Inputs) :
  Step4.applies (step4 Math_sqrt inp) = Risk.highRisk (risk Math_sqrt inp)
  /\ andb (Step4.applies (step4 Math_sqrt inp))
          (isSome (Step4.weightLoss (step4 Math_sqrt inp)))
     = isSome (Step4.weightLoss (step4 Math_sqrt inp)).
Proof.
  unfold step4. destruct (Risk.highRisk (risk Math_sqrt inp)); simpl;
    [ | split; reflexivity ].
  destruct (nAge inp); simpl; split; reflexivity.
Qed.

Section SummaryFacts.

Variable Math_sqrt : number -> number.
Variable toFixed : number -> nat -> string.
Variable numberToString : number -> string.

(** Whatever the host prints for a number, the summary starts with the name
    of the tool, ends with the disclaimer, has from 21 to 30 lines, and
    none of its lines is empty. *)
Theorem summary_skeleton (inp : Inputs) :
  let lines := summaryLines Math_sqrt toFixed numberToString inp in
  hd_error lines = Some toolName
  /\ last lines ""
     = "Disclaimer: Clinical decision support/education tool. No patient data are stored. Use clinical judgment."
  /\ (21 <= List.length lines <= 30)%nat
  /\ forallb (fun s => negb (String.eqb s "")) lines = true.
Proof.
  intro lines.
  assert (Hlast : last lines ""
                  = "Disclaimer: Clinical decision support/education tool. No patient data are stored. Use clinical judgment.")
    by apply last_last.
  assert (H : Built 21 30 toolName lines).
  { subst lines. unfold summaryLines. cbv zeta.
    repeat first
      [ apply Built_start; reflexivity
      | apply Built_push; [ | reflexivity ]
      | apply Built_pushIf; [ | reflexivity ]
      | apply Built_match; [ | intro; reflexivity ]
      | apply Built_match_pushIf; [ | intro; reflexivity ]
      | apply Built_step4; [ | reflexivity | intro; reflexivity ] ]. }
  destruct H as (Hh & Hl & Hf). auto.
Qed.

(** The verdict lines of the summary follow the steps: it says HIGH RISK
    exactly at high risk and YES exactly when the OGTT is indicated, it has
    a step 4 line exactly at high risk, an exact-risk line exactly when an
    exact risk is reported and a weight-loss line exactly when a target
    is. *)
Theorem summary_verdicts (inp : Inputs) :
  let lines := summaryLines Math_sqrt toFixed numberToString inp in
  let r := risk Math_sqrt inp in
  existsb (String.eqb "Step 3 (High-risk prognostic markers): HIGH RISK") lines
  = Risk.highRisk r
  /\ existsb (String.eqb "Step 1 (OGTT indication): YES") lines
     = indicated (ogttIndication inp)
  /\ existsb (String.prefix "Step 4 (Age-based recommendation): ") lines
     = Risk.highRisk r
  /\ existsb (String.prefix "Exact risk (per criteria): ") lines
     = truthy (Risk.exactRisk r)
  /\ existsb (String.prefix "Weight-loss target (5–10%): ") lines
     = isSome (Step4.weightLoss (step4 Math_sqrt inp)).
Proof.
  intros lines r. subst lines r.
  destruct (step4_applies Math_sqrt inp) as [Happ Hwl].
  rewrite <- Hwl. rewrite <- Happ at 2. clear Happ Hwl.
  unfold summaryLines. cbv zeta.
  split; [ | split; [ | split; [ | split ] ] ].
  - skip_lines.
    apply existsb_push_yes;
      [ | destruct (Risk.highRisk (risk Math_sqrt inp)); reflexivity ].
    skip_lines. reflexivity.
  - skip_lines.
    apply existsb_push_yes;
      [ | destruct (indicated (ogttIndication inp)); reflexivity ].
    skip_lines. reflexivity.
  - skip_lines.
    apply existsb_step4_decision;
      [ | apply prefix_append | intro; reflexivity ].
    skip_lines. reflexivity.
  - skip_lines.
    destruct (Risk.exactRisk (risk Math_sqrt inp)) as [x | ] eqn:E.
    + unfold pushIf. destruct (truthy (Some x)).
      * apply existsb_push_yes; [ | apply prefix_append ].
        skip_lines. reflexivity.
      * skip_lines. reflexivity.
    + skip_lines. reflexivity.
  - skip_lines.
    apply existsb_step4_weight;
      [ | reflexivity | intro; apply prefix_append ].
    skip_lines. reflexivity.
Qed.

End SummaryFacts.

Lemma comparison_flag_changes_witness :
  exists c,
    comparison approxSqrt
      (Some (snapshot approxSqrt "t" (normalize fastingOnlyForm maleChoices)))
      (normalize repeatForm maleChoices) = Some c
    /\ In "IFG present (FPG 100–125 mg/dL)" (Comparison.removed c)
    /\ ~ In "IFG present (FPG 100–125 mg/dL)" (Comparison.added c).
Proof.
  destruct (comparison_flag_changes approxSqrt
              (snapshot approxSqrt "t" (normalize fastingOnlyForm maleChoices))
              (normalize repeatForm maleChoices))
    as (c & Hc & _ & Hrem & _ & _ & Hdis & _).
  exists c. split; [ exact Hc | ].
  assert (Hin : In "IFG present (FPG 100–125 mg/dL)" (Comparison.removed c)).
  { apply Hrem. split.
    - vm_compute. left. reflexivity.
    - vm_compute. intros []. }
  split; [ exact Hin | ].
  intro Ha. exact (Hdis _ Ha Hin).
Defined.

(** For a patient of a high-risk ethnicity the BMI alone decides the last
    trigger of step 1: the ethnicity is itself a risk factor, so a BMI at
    the threshold (23 for Asian American, 25 otherwise) is an indication
    with no other risk factor. *)
Theorem high_risk_ethnicity_needs_only_bmi (inp : Inputs) :
  highRiskEthnicity inp = true ->
  defined_and (bmi inp)
    (fun b => b >= Fin (inject_Z (bmiThreshold inp)))%js = true ->
  indicated (ogttIndication inp) = true.
Proof.
  intros He Hb. apply indicated_triggers.
  right. right. right. right. split; [ exact Hb | ].
  exists {| ok := highRiskEthnicity inp; rfLabel := "High-risk ethnicity" |}.
  split; [ | exact He ].
  unfold riskFactors. simpl. auto 10.
Qed.

Lemma high_risk_ethnicity_needs_only_bmi_witness :
  bmiThreshold (normalize bmi24Form asianChoices) = 23%Z
  /\ indicated (ogttIndication (normalize bmi24Form asianChoices)) = true.
Proof.
  split; [ reflexivity | ].
  apply (high_risk_ethnicity_needs_only_bmi (normalize bmi24Form asianChoices));
    vm_compute; reflexivity.
Defined.
